(** * Next-Crud-Demo: the book-record persistence and mutation layer

    A shallow embedding of [app/lib/actions/bookActions.ts] and
    [app/types/book.ts], together with the part of the JavaScript [Date]
    object that the two file helpers rely on ([new Date(string)],
    [toISOString], [split("T")[0]]).

    The books file is modelled at the level of the JSON value it holds and
    every exported action is a function of the environment of one call (the
    clock reading and whether the file write succeeds) and of the file. *)

From Stdlib Require Import ZArith Lia String Ascii List Bool.
From stdpp Require Import base tactics option list strings pretty.

Local Open Scope string_scope.
Local Open Scope list_scope.
Local Open Scope Z_scope.

(* ===================================================================== *)
(** ** The JavaScript [Date] object (ECMA-262, "Date Objects")            *)
(* ===================================================================== *)

Module JsDate.

(** A Date holds a time value: [NaN] (an "Invalid Date") or a number of
    milliseconds since the epoch. *)
Inductive Date : Type :=
  | InvalidDate
  | TimeValue (t : Z).

Global Instance Date_eq_dec : EqDecision Date.
Proof. solve_decision. Defined.

Definition msPerDay : Z := 86400000.
Definition maxTime : Z := 8640000000000000.

(** A time value lies within 100,000,000 days of the epoch. *)
Definition validTime (t : Z) : bool := (- maxTime <=? t) && (t <=? maxTime).

Definition TimeClip (t : Z) : Date :=
  if validTime t then TimeValue t else InvalidDate.

Definition Day (t : Z) : Z := t / msPerDay.
Definition TimeWithinDay (t : Z) : Z := t mod msPerDay.

Definition isLeapYear (y : Z) : bool :=
  if negb (y mod 4 =? 0) then false
  else if negb (y mod 100 =? 0) then true
  else if negb (y mod 400 =? 0) then false
  else true.

Definition DaysInYear (y : Z) : Z := if isLeapYear y then 366 else 365.

Definition DayFromYear (y : Z) : Z :=
  365 * (y - 1970) + (y - 1969) / 4 - (y - 1901) / 100 + (y - 1601) / 400.

(** [YearFromTime]: the largest [y] with [DayFromYear y <= Day t]; the
    estimate from the mean year length is off by at most one. *)
Definition YearFromDay (d : Z) : Z :=
  let y := 1970 + (400 * d) / 146097 in
  if DayFromYear (y + 1) <=? d then y + 1
  else if DayFromYear y <=? d then y
  else y - 1.

Definition YearFromTime (t : Z) : Z := YearFromDay (Day t).
Definition InLeapYear (t : Z) : Z := if isLeapYear (YearFromTime t) then 1 else 0.
Definition DayWithinYear (t : Z) : Z := Day t - DayFromYear (YearFromTime t).

(** Number of days of the year before month [m] (0-based), [leap] being 0 or 1. *)
Definition monthStart (leap m : Z) : Z :=
  if m =? 0 then 0 else if m =? 1 then 31
  else if m =? 2 then 59 + leap else if m =? 3 then 90 + leap
  else if m =? 4 then 120 + leap else if m =? 5 then 151 + leap
  else if m =? 6 then 181 + leap else if m =? 7 then 212 + leap
  else if m =? 8 then 243 + leap else if m =? 9 then 273 + leap
  else if m =? 10 then 304 + leap else if m =? 11 then 334 + leap
  else 365 + leap.

Definition monthOfYearDay (leap d : Z) : Z :=
  if d <? 31 then 0 else if d <? 59 + leap then 1
  else if d <? 90 + leap then 2 else if d <? 120 + leap then 3
  else if d <? 151 + leap then 4 else if d <? 181 + leap then 5
  else if d <? 212 + leap then 6 else if d <? 243 + leap then 7
  else if d <? 273 + leap then 8 else if d <? 304 + leap then 9
  else if d <? 334 + leap then 10 else 11.

Definition MonthFromTime (t : Z) : Z := monthOfYearDay (InLeapYear t) (DayWithinYear t).

Definition DateFromTime (t : Z) : Z :=
  DayWithinYear t - monthStart (InLeapYear t) (MonthFromTime t) + 1.

Definition HourFromTime (t : Z) : Z := (t / 3600000) mod 24.
Definition MinFromTime (t : Z) : Z := (t / 60000) mod 60.
Definition SecFromTime (t : Z) : Z := (t / 1000) mod 60.
Definition msFromTime (t : Z) : Z := t mod 1000.

(** *** Decimal fields *)

Definition digit (n : Z) : ascii := ascii_of_N (48 + Z.to_N n).

Definition digitValue (c : ascii) : option Z :=
  let n := Z.of_N (N_of_ascii c) in
  if (48 <=? n) && (n <=? 57) then Some (n - 48) else None.

Definition isDigit (c : ascii) : bool :=
  match digitValue c with Some _ => true | None => false end.

Definition pad2 (n : Z) : list ascii := [digit (n / 10 mod 10); digit (n mod 10)].
Definition pad3 (n : Z) : list ascii := digit (n / 100 mod 10) :: pad2 n.
Definition pad4 (n : Z) : list ascii := digit (n / 1000 mod 10) :: pad3 n.
Definition pad6 (n : Z) : list ascii :=
  digit (n / 100000 mod 10) :: digit (n / 10000 mod 10) :: pad4 n.

(** The year of the Date Time String Format: four digits for 0..9999,
    otherwise a sign and six digits (an "expanded year"). *)
Definition yearField (y : Z) : list ascii :=
  if (0 <=? y) && (y <=? 9999) then pad4 y
  else if 0 <=? y then "+"%char :: pad6 y
  else "-"%char :: pad6 (- y).

Definition dateField (t : Z) : list ascii :=
  yearField (YearFromTime t) ++ "-"%char :: pad2 (MonthFromTime t + 1)
    ++ "-"%char :: pad2 (DateFromTime t).

(** The date part as a string. *)
Definition dateString (t : Z) : string := string_of_list_ascii (dateField t).

Definition timeField (t : Z) : list ascii :=
  pad2 (HourFromTime t) ++ ":"%char :: pad2 (MinFromTime t)
    ++ ":"%char :: pad2 (SecFromTime t) ++ "."%char :: pad3 (msFromTime t).

(** [Date.prototype.toISOString]: [YYYY-MM-DDTHH:mm:ss.sssZ]; [None] is the
    RangeError thrown for a time value that is not finite. *)
Definition toISOString (d : Date) : option string :=
  match d with
  | InvalidDate => None
  | TimeValue t =>
      if validTime t
      then Some (string_of_list_ascii (dateField t ++ "T"%char :: timeField t ++ ["Z"%char]))
      else None
  end.

(** [s.split("T")[0]]: the part of [s] before the first ["T"]. *)
Fixpoint beforeT (s : string) : string :=
  match s with
  | EmptyString => EmptyString
  | String c rest => if Ascii.eqb c "T" then EmptyString else String c (beforeT rest)
  end.

(** *** Parsing the date-only forms *)

Fixpoint digitsValue (acc : Z) (cs : list ascii) : option Z :=
  match cs with
  | [] => Some acc
  | c :: cs' =>
      match digitValue c with
      | Some v => digitsValue (10 * acc + v) cs'
      | None => None
      end
  end.

Definition DaysInMonth (y m : Z) : Z :=
  let leap := if isLeapYear y then 1 else 0 in
  monthStart leap m - monthStart leap (m - 1).

(** Time value of midnight UTC of year [y], month [m] (1..12), day [d]. *)
Definition MakeDate (y m d : Z) : option Z :=
  if (1 <=? m) && (m <=? 12) && (1 <=? d) && (d <=? DaysInMonth y m)
  then Some (msPerDay *
             (DayFromYear y + monthStart (if isLeapYear y then 1 else 0) (m - 1) + d - 1))
  else None.

Definition parseFields (sign : Z) (ys ms ds : list ascii) : option Z :=
  match digitsValue 0 ys, digitsValue 0 ms, digitsValue 0 ds with
  | Some y, Some m, Some d => MakeDate (sign * y) m d
  | _, _, _ => None
  end.

(** The two date-only forms of the Date Time String Format,
    [YYYY-MM-DD] and [+YYYYYY-MM-DD] / [-YYYYYY-MM-DD] (the year [-000000]
    is not allowed); a date-only form denotes midnight UTC. *)
Definition parseDateOnly (s : string) : option Z :=
  match list_ascii_of_string s with
  | [y1; y2; y3; y4; s1; m1; m2; s2; d1; d2] =>
      if Ascii.eqb s1 "-" && Ascii.eqb s2 "-"
      then parseFields 1 [y1; y2; y3; y4] [m1; m2] [d1; d2]
      else None
  | [sg; y1; y2; y3; y4; y5; y6; s1; m1; m2; s2; d1; d2] =>
      if Ascii.eqb s1 "-" && Ascii.eqb s2 "-"
      then if Ascii.eqb sg "+"
           then parseFields 1 [y1; y2; y3; y4; y5; y6] [m1; m2] [d1; d2]
           else if Ascii.eqb sg "-"
           then match digitsValue 0 [y1; y2; y3; y4; y5; y6] with
                | Some 0 => None
                | _ => parseFields (-1) [y1; y2; y3; y4; y5; y6] [m1; m2] [d1; d2]
                end
           else None
      else None
  | _ => None
  end.

Section Parse.
(** What [Date.parse] makes of a string outside the two date-only forms:
    the forms with a time of day and the implementation-defined fallback
    formats ([None] is NaN). *)
Variable otherParse : string -> option Z.

(** [new Date(s)] for a string [s]. *)
Definition newDate (s : string) : Date :=
  match parseDateOnly s with
  | Some t => TimeClip t
  | None => match otherParse s with
            | Some t => TimeClip t
            | None => InvalidDate
            end
  end.
End Parse.

End JsDate.

Import JsDate.

(* ===================================================================== *)
(** ** app/types/book.ts                                                  *)
(* ===================================================================== *)

Inductive BookCondition : Type := EXCELLENT | GOOD | FAIR | POOR | DESTROYED.

Global Instance BookCondition_eq_dec : EqDecision BookCondition.
Proof. solve_decision. Defined.

(** [interface Book]; an optional property is an [option]. *)
Record Book : Type := mkBook {
  id : string;
  title : string;
  author : string;
  isbn : string;
  publishedYear : Z;
  genre : string;
  description : string;
  condition : BookCondition;
  isCheckedOut : bool;
  isActive : bool;
  lastCheckedOutDate : option Date;
  addedDate : Date
}.

Global Instance Book_eq_dec : EqDecision Book.
Proof. solve_decision. Defined.

(* ===================================================================== *)
(** ** app/lib/actions/bookActions.ts                                     *)
(* ===================================================================== *)

(** [interface AddBookData] *)
Module AddBookData.
Record t : Type := mk {
  title : string;
  author : string;
  isbn : string;
  publishedYear : Z;
  genre : string;
  description : string;
  condition : BookCondition
}.
End AddBookData.

(** A book as an element of the ["books"] array of the file: the object
    that the callback of [books.map] builds in [writeBooksToFile], with the
    two dates as strings.  [lastCheckedOutDate = None] is the value
    [undefined]. *)
Module Stored.
Record book : Type := mk {
  id : string;
  title : string;
  author : string;
  isbn : string;
  publishedYear : Z;
  genre : string;
  description : string;
  condition : BookCondition;
  isCheckedOut : bool;
  isActive : bool;
  lastCheckedOutDate : option string;
  addedDate : string
}.
End Stored.

Global Instance Stored_book_eq_dec : EqDecision Stored.book.
Proof. solve_decision. Defined.

(** The values of the properties of such an object. *)
Inductive JsValue : Type :=
  | JsUndefined
  | JsString (s : string)
  | JsNumber (n : Z)
  | JsBoolean (b : bool).

Definition conditionName (c : BookCondition) : string :=
  match c with
  | EXCELLENT => "EXCELLENT" | GOOD => "GOOD" | FAIR => "FAIR"
  | POOR => "POOR" | DESTROYED => "DESTROYED"
  end.

(** The own properties of the object (their order is not significant). *)
Definition properties (b : Stored.book) : list (string * JsValue) :=
  [ ("id", JsString (Stored.id b));
    ("title", JsString (Stored.title b));
    ("author", JsString (Stored.author b));
    ("isbn", JsString (Stored.isbn b));
    ("publishedYear", JsNumber (Stored.publishedYear b));
    ("genre", JsString (Stored.genre b));
    ("description", JsString (Stored.description b));
    ("condition", JsString (conditionName (Stored.condition b)));
    ("isCheckedOut", JsBoolean (Stored.isCheckedOut b));
    ("isActive", JsBoolean (Stored.isActive b));
    ("lastCheckedOutDate",
       match Stored.lastCheckedOutDate b with
       | Some s => JsString s
       | None => JsUndefined
       end);
    ("addedDate", JsString (Stored.addedDate b)) ].

Definition isUndefined (v : JsValue) : bool :=
  match v with JsUndefined => true | _ => false end.

(** [JSON.stringify] leaves out the properties whose value is [undefined]:
    these are the members of the JSON object in the file. *)
Definition jsonMembers (b : Stored.book) : list (string * JsValue) :=
  List.filter (fun p => negb (isUndefined (snd p))) (properties b).

Fixpoint member (key : string) (o : list (string * JsValue)) : option JsValue :=
  match o with
  | [] => None
  | (k, v) :: o' => if String.eqb k key then Some v else member key o'
  end.

(** The file [app/data/books.json]: [Unreadable] stands for every content
    on which the [try] block of [readBooksFromFile] throws (no file, text
    that is not JSON, no ["books"] array); otherwise the array. *)
Inductive BooksFile : Type :=
  | Unreadable
  | BooksJson (books : list Stored.book).

(** What one call of an action finds around it: the clock read by
    [new Date()] and whether [fs.writeFile] succeeds. A failing write is
    taken to leave the file as it was. *)
Record Env : Type := mkEnv { now : Z; writeOk : bool }.

(** The outcome of an awaited promise: fulfilled, or rejected with an
    [Error] carrying a message. *)
Inductive Result (A : Type) : Type :=
  | Ok (a : A)
  | Err (message : string).
Arguments Ok {A} a.
Arguments Err {A} message.

Definition Action (A : Type) : Type := Env -> BooksFile -> Result A * BooksFile.

Definition ret {A} (a : A) : Action A := fun _ file => (Ok a, file).

Definition bind {A B} (m : Action A) (k : A -> Action B) : Action B :=
  fun env file =>
    match m env file with
    | (Ok a, file') => k a env file'
    | (Err e, file') => (Err e, file')
    end.

Notation "x <- m ;; k" := (bind m (fun x => k))
  (at level 100, m at next level, right associativity).
Notation "m ;;; k" := (bind m (fun _ => k))
  (at level 100, right associativity).

(** [revalidatePath] only tells Next.js to drop cached pages. *)
Definition revalidatePath (path : string) : Action unit := ret tt.

Section Actions.
Variable otherParse : string -> option Z.

(** The callback of [books.map] in [readBooksFromFile]. A string is
    truthy when it is not empty; an absent property reads as [undefined]. *)
Definition loadBook (book : Stored.book) : Book :=
  {| id := Stored.id book;
     title := Stored.title book;
     author := Stored.author book;
     isbn := Stored.isbn book;
     publishedYear := Stored.publishedYear book;
     genre := Stored.genre book;
     description := Stored.description book;
     condition := Stored.condition book;
     isCheckedOut := Stored.isCheckedOut book;
     isActive := Stored.isActive book;
     addedDate := newDate otherParse (Stored.addedDate book);
     lastCheckedOutDate :=
       match Stored.lastCheckedOutDate book with
       | Some s =>
           if String.eqb s EmptyString then None else Some (newDate otherParse s)
       | None => None
       end |}.

Definition readBooksFromFile : Action (list Book) :=
  fun _ file =>
    match file with
    | BooksJson books => (Ok (List.map loadBook books), file)
    | Unreadable => (Ok [], file)
    end.

(** [date.toISOString().split("T")[0]] *)
Definition dateOnly (d : Date) : option string :=
  match toISOString d with
  | Some s => Some (beforeT s)
  | None => None
  end.

(** The callback of [books.map] in [writeBooksToFile]; [None] when
    [toISOString] throws. A Date object is always truthy. *)
Definition bookToSave (book : Book) : option Stored.book :=
  match dateOnly (addedDate book) with
  | None => None
  | Some added =>
      match
        match lastCheckedOutDate book with
        | Some d => match dateOnly d with
                    | Some s => Some (Some s)
                    | None => None
                    end
        | None => Some None
        end
      with
      | None => None
      | Some last =>
          Some {| Stored.id := id book;
                  Stored.title := title book;
                  Stored.author := author book;
                  Stored.isbn := isbn book;
                  Stored.publishedYear := publishedYear book;
                  Stored.genre := genre book;
                  Stored.description := description book;
                  Stored.condition := condition book;
                  Stored.isCheckedOut := isCheckedOut book;
                  Stored.isActive := isActive book;
                  Stored.lastCheckedOutDate := last;
                  Stored.addedDate := added |}
      end
  end.

Fixpoint booksToSave (books : list Book) : option (list Stored.book) :=
  match books with
  | [] => Some []
  | book :: rest =>
      match bookToSave book, booksToSave rest with
      | Some b, Some bs => Some (b :: bs)
      | _, _ => None
      end
  end.

(** Whatever is thrown inside the [try] is replaced by the one error. *)
Definition writeBooksToFile (books : list Book) : Action unit :=
  fun env file =>
    match booksToSave books with
    | Some toSave =>
        if writeOk env then (Ok tt, BooksJson toSave)
        else (Err "Failed to save books", file)
    | None => (Err "Failed to save books", file)
    end.

Definition getBooks : Action (list Book) := readBooksFromFile.

(** [books.find(p)] and [books.findIndex(p)] stop at the first match. *)
Definition findById (bookId : string) (books : list Book) : option (nat * Book) :=
  list_find (fun book => id book = bookId) books.

Definition getBook (bookId : string) : Action (option Book) :=
  books <- readBooksFromFile ;;
  ret (snd <$> findById bookId books).

Definition getActiveBooks : Action (list Book) :=
  books <- readBooksFromFile ;;
  ret (List.filter isActive books).

(** [new Date()] *)
Definition newDateNow : Action Date := fun env file => (Ok (TimeValue (now env)), file).

Definition newBook (count : nat) (data : AddBookData.t) (created : Date) : Book :=
  {| id := pretty (count + 1)%nat;
     title := AddBookData.title data;
     author := AddBookData.author data;
     isbn := AddBookData.isbn data;
     publishedYear := AddBookData.publishedYear data;
     genre := AddBookData.genre data;
     description := AddBookData.description data;
     condition := AddBookData.condition data;
     isCheckedOut := false;
     isActive := true;
     lastCheckedOutDate := None;
     addedDate := created |}.

Definition addBook (data : AddBookData.t) : Action unit :=
  books <- readBooksFromFile ;;
  created <- newDateNow ;;
  writeBooksToFile (books ++ [newBook (length books) data created]) ;;;
  revalidatePath "/books".

(** [{...book, ...data, id: book.id, ...}] *)
Definition withData (book : Book) (data : AddBookData.t) : Book :=
  {| id := id book;
     title := AddBookData.title data;
     author := AddBookData.author data;
     isbn := AddBookData.isbn data;
     publishedYear := AddBookData.publishedYear data;
     genre := AddBookData.genre data;
     description := AddBookData.description data;
     condition := AddBookData.condition data;
     isCheckedOut := isCheckedOut book;
     isActive := isActive book;
     lastCheckedOutDate := lastCheckedOutDate book;
     addedDate := addedDate book |}.

Definition updateBook (bookId : string) (data : AddBookData.t) : Action unit :=
  books <- readBooksFromFile ;;
  match findById bookId books with
  | Some (bookIndex, book) =>
      writeBooksToFile (<[bookIndex := withData book data]> books) ;;;
      revalidatePath ("/books/" ++ bookId) ;;;
      revalidatePath "/books"
  | None => ret tt
  end.

(** The two assignments of [toggleCheckoutStatus]. *)
Definition toggled (book : Book) (current : Date) : Book :=
  {| id := id book;
     title := title book;
     author := author book;
     isbn := isbn book;
     publishedYear := publishedYear book;
     genre := genre book;
     description := description book;
     condition := condition book;
     isCheckedOut := negb (isCheckedOut book);
     isActive := isActive book;
     lastCheckedOutDate := if negb (isCheckedOut book) then Some current else None;
     addedDate := addedDate book |}.

(** [book] is the element of [books] itself, so the assignments change
    the array at the index where [find] stopped. *)
Definition toggleCheckoutStatus (bookId : string) : Action unit :=
  books <- readBooksFromFile ;;
  match findById bookId books with
  | Some (bookIndex, book) =>
      current <- newDateNow ;;
      writeBooksToFile (<[bookIndex := toggled book current]> books) ;;;
      revalidatePath ("/books/" ++ bookId) ;;;
      revalidatePath "/books"
  | None => ret tt
  end.

Definition inactive (book : Book) : Book :=
  {| id := id book;
     title := title book;
     author := author book;
     isbn := isbn book;
     publishedYear := publishedYear book;
     genre := genre book;
     description := description book;
     condition := condition book;
     isCheckedOut := isCheckedOut book;
     isActive := false;
     lastCheckedOutDate := lastCheckedOutDate book;
     addedDate := addedDate book |}.

Definition markBookInactive (bookId : string) : Action unit :=
  books <- readBooksFromFile ;;
  match findById bookId books with
  | Some (bookIndex, book) =>
      writeBooksToFile (<[bookIndex := inactive book]> books) ;;;
      revalidatePath "/books"
  | None => ret tt
  end.

Definition withCondition (book : Book) (c : BookCondition) : Book :=
  {| id := id book;
     title := title book;
     author := author book;
     isbn := isbn book;
     publishedYear := publishedYear book;
     genre := genre book;
     description := description book;
     condition := c;
     isCheckedOut := isCheckedOut book;
     isActive := isActive book;
     lastCheckedOutDate := lastCheckedOutDate book;
     addedDate := addedDate book |}.

Definition updateBookCondition (bookId : string) (c : BookCondition) : Action unit :=
  books <- readBooksFromFile ;;
  match findById bookId books with
  | Some (bookIndex, book) =>
      writeBooksToFile (<[bookIndex := withCondition book c]> books) ;;;
      revalidatePath ("/books/" ++ bookId) ;;;
      revalidatePath "/books"
  | None => ret tt
  end.

(** *** Sequences of mutations *)

Inductive Mutation : Type :=
  | Add (data : AddBookData.t)
  | Update (bookId : string) (data : AddBookData.t)
  | ToggleCheckout (bookId : string)
  | SetInactive (bookId : string)
  | UpdateCondition (bookId : string) (c : BookCondition).

Definition perform (m : Mutation) : Action unit :=
  match m with
  | Add data => addBook data
  | Update bookId data => updateBook bookId data
  | ToggleCheckout bookId => toggleCheckoutStatus bookId
  | SetInactive bookId => markBookInactive bookId
  | UpdateCondition bookId c => updateBookCondition bookId c
  end.

(** The file after a sequence of calls, each in its own environment;
    a rejected call leaves the caller with the file as it is. *)
Fixpoint performAll (calls : list (Env * Mutation)) (file : BooksFile) : BooksFile :=
  match calls with
  | [] => file
  | (env, m) :: rest => performAll rest (snd (perform m env file))
  end.

(** The collection as [loadAll] shows it. *)
Definition loadAll (file : BooksFile) : list Book :=
  match readBooksFromFile (mkEnv 0 true) file with
  | (Ok books, _) => books
  | (Err _, _) => []
  end.

End Actions.

(* ===================================================================== *)
(** ** Vocabulary of the specification                                    *)
(* ===================================================================== *)

(** The shape [YYYY-MM-DD]: four digits, two digits, two digits. *)
Definition isYYYYMMDD (s : string) : bool :=
  match list_ascii_of_string s with
  | [y1; y2; y3; y4; s1; m1; m2; s2; d1; d2] =>
      forallb isDigit [y1; y2; y3; y4; m1; m2; d1; d2]
      && Ascii.eqb s1 "-" && Ascii.eqb s2 "-"
  | _ => false
  end.

(** The shape with an expanded year: a sign, six digits, [-MM-DD]. *)
Definition isExpandedYearDate (s : string) : bool :=
  match list_ascii_of_string s with
  | [sg; y1; y2; y3; y4; y5; y6; s1; m1; m2; s2; d1; d2] =>
      (Ascii.eqb sg "+" || Ascii.eqb sg "-")
      && forallb isDigit [y1; y2; y3; y4; y5; y6; m1; m2; d1; d2]
      && Ascii.eqb s1 "-" && Ascii.eqb s2 "-"
  | _ => false
  end.

(** A date string as [writeBooksToFile] writes it: a date-only form that
    [toISOString().split("T")[0]] gives back unchanged. *)
Definition isDateOnlyString (s : string) : bool :=
  match parseDateOnly s with
  | Some t =>
      match dateOnly (TimeValue t) with
      | Some s' => String.eqb s' s
      | None => false
      end
  | None => false
  end.

Definition storedDatesOk (b : Stored.book) : bool :=
  isDateOnlyString (Stored.addedDate b)
  && match Stored.lastCheckedOutDate b with
     | Some s => isDateOnlyString s
     | None => true
     end.

(** The backing-store format: every stored date is a date-only string. *)
Definition inStoreFormat (file : BooksFile) : bool :=
  match file with
  | Unreadable => true
  | BooksJson books => forallb storedDatesOk books
  end.

(** Dates compared at day granularity (UTC). *)
Definition sameDay (d1 d2 : Date) : bool :=
  match d1, d2 with
  | TimeValue a, TimeValue b => Day a =? Day b
  | InvalidDate, InvalidDate => true
  | _, _ => false
  end.

Definition sameDayOpt (d1 d2 : option Date) : bool :=
  match d1, d2 with
  | Some a, Some b => sameDay a b
  | None, None => true
  | _, _ => false
  end.

(** Midnight UTC of the day of a date. *)
Definition startOfDay (d : Date) : Date :=
  match d with
  | TimeValue t => TimeValue (msPerDay * Day t)
  | InvalidDate => InvalidDate
  end.

(** Two books that differ at most in the time of day of their dates. *)
Definition sameBookByDay (b1 b2 : Book) : Prop :=
  id b1 = id b2 /\ title b1 = title b2 /\ author b1 = author b2
  /\ isbn b1 = isbn b2 /\ publishedYear b1 = publishedYear b2
  /\ genre b1 = genre b2 /\ description b1 = description b2
  /\ condition b1 = condition b2 /\ isCheckedOut b1 = isCheckedOut b2
  /\ isActive b1 = isActive b2
  /\ sameDayOpt (lastCheckedOutDate b1) (lastCheckedOutDate b2) = true
  /\ sameDay (addedDate b1) (addedDate b2) = true.

(** [n] successive calls of [toggleCheckoutStatus], one environment each. *)
Definition toggles (bookId : string) (envs : list Env) : list (Env * Mutation) :=
  List.map (fun env => (env, ToggleCheckout bookId)) envs.

(** A stored book with its [isActive] member replaced. *)
Definition setActive (a : bool) (b : Stored.book) : Stored.book :=
  {| Stored.id := Stored.id b;
     Stored.title := Stored.title b;
     Stored.author := Stored.author b;
     Stored.isbn := Stored.isbn b;
     Stored.publishedYear := Stored.publishedYear b;
     Stored.genre := Stored.genre b;
     Stored.description := Stored.description b;
     Stored.condition := Stored.condition b;
     Stored.isCheckedOut := Stored.isCheckedOut b;
     Stored.isActive := a;
     Stored.lastCheckedOutDate := Stored.lastCheckedOutDate b;
     Stored.addedDate := Stored.addedDate b |}.

(** The file with the [isActive] member of its [k]-th book replaced. *)
Definition setActiveAt (k : nat) (a : bool) (file : BooksFile) : BooksFile :=
  match file with
  | Unreadable => Unreadable
  | BooksJson books => BooksJson (alter (setActive a) k books)
  end.

Definition emptyFile : BooksFile := BooksJson [].

(** A book as it is read back once it has been saved: both dates at
    midnight UTC of their day. *)
Definition asSaved (b : Book) : Book :=
  {| id := id b;
     title := title b;
     author := author b;
     isbn := isbn b;
     publishedYear := publishedYear b;
     genre := genre b;
     description := description b;
     condition := condition b;
     isCheckedOut := isCheckedOut b;
     isActive := isActive b;
     lastCheckedOutDate := startOfDay <$> lastCheckedOutDate b;
     addedDate := startOfDay (addedDate b) |}.

Definition storedBooks (file : BooksFile) : list Stored.book :=
  match file with
  | Unreadable => []
  | BooksJson books => books
  end.

(** A book with its [isActive] flag replaced. *)
Definition withActive (a : bool) (b : Book) : Book :=
  {| id := id b;
     title := title b;
     author := author b;
     isbn := isbn b;
     publishedYear := publishedYear b;
     genre := genre b;
     description := description b;
     condition := condition b;
     isCheckedOut := isCheckedOut b;
     isActive := a;
     lastCheckedOutDate := lastCheckedOutDate b;
     addedDate := addedDate b |}.

(** [saveAll(loadAll())] *)
Definition resave (otherParse : string -> option Z) : Action unit :=
  books <- readBooksFromFile otherParse ;;
  writeBooksToFile books.

(** The target of a mutation that is keyed by an id. *)
Definition targetId (m : Mutation) : option string :=
  match m with
  | Add _ => None
  | Update bookId _ | ToggleCheckout bookId | SetInactive bookId
  | UpdateCondition bookId _ => Some bookId
  end.

(** What a mutation keyed by an id does to the book it finds. *)
Definition effect (m : Mutation) (env : Env) (book : Book) : Book :=
  match m with
  | Add _ => book
  | Update _ data => withData book data
  | ToggleCheckout _ => toggled book (TimeValue (now env))
  | SetInactive _ => inactive book
  | UpdateCondition _ c => withCondition book c
  end.

(** The common course of the four mutations keyed by an id: the first
    book with the id is replaced and the collection written, or nothing
    happens. *)
Definition replaceFirst (otherParse : string -> option Z)
    (bookId : string) (f : Book -> Book) : Action unit :=
  fun env file =>
    match findById bookId (loadAll otherParse file) with
    | Some (bookIndex, book) =>
        writeBooksToFile (<[bookIndex := f book]> (loadAll otherParse file)) env file
    | None => (Ok tt, file)
    end.

(** The shape of the date part for a time value: [YYYY-MM-DD] when its
    year has four digits, a sign and six digits of year otherwise. *)
Definition dateOnlyShape (t : Z) (s : string) : Prop :=
  (0 <= YearFromTime t <= 9999 -> isYYYYMMDD s = true)
  /\ (~ 0 <= YearFromTime t <= 9999 ->
      isExpandedYearDate s = true /\ isYYYYMMDD s = false).

(** How a date of a book shows in the object that is written. *)
Definition writtenAs (d : Date) (s : string) : Prop :=
  exists t, d = TimeValue t /\ validTime t = true
            /\ s = dateString t /\ dateOnlyShape t s.

(** Two books that agree on every field that [toggleCheckoutStatus]
    does not assign. *)
Definition sameExceptCheckout (b1 b2 : Book) : Prop :=
  id b1 = id b2 /\ title b1 = title b2 /\ author b1 = author b2
  /\ isbn b1 = isbn b2 /\ publishedYear b1 = publishedYear b2
  /\ genre b1 = genre b2 /\ description b1 = description b2
  /\ condition b1 = condition b2 /\ isActive b1 = isActive b2
  /\ addedDate b1 = addedDate b2.

(** An environment in which a call can complete: the write succeeds and
    the clock shows a time value. *)
Definition canComplete (env : Env) : Prop :=
  writeOk env = true /\ validTime (now env) = true.

(** *** Sample data *)

Definition noOtherParse : string -> option Z := fun _ => None.

Definition dune : AddBookData.t :=
  AddBookData.mk "Dune" "Herbert" "978-0" 1965 "SciFi" "..." GOOD.

Definition emma : AddBookData.t :=
  AddBookData.mk "Emma" "Austen" "978-1" 1815 "Novel" "A comedy" FAIR.

(** 14 November 2023, 22:13:20.123 UTC, and a full disk at the same time. *)
Definition someEnv : Env := mkEnv 1700000000123 true.
Definition fullDisk : Env := mkEnv 1700000000123 false.

(** The file after [add(dune)] on the empty store, and after one check-out. *)
Definition duneFile : BooksFile :=
  BooksJson [Stored.mk "1" "Dune" "Herbert" "978-0" 1965 "SciFi" "..." GOOD
               false true None "2023-11-14"].

Definition duneOutFile : BooksFile :=
  BooksJson [Stored.mk "1" "Dune" "Herbert" "978-0" 1965 "SciFi" "..." GOOD
               true true (Some "2023-11-14") "2023-11-14"].

(** A book added on 1 January 10000. *)
Definition lateBook : Book :=
  mkBook "1" "Dune" "Herbert" "978-0" 1965 "SciFi" "..." GOOD
         false true None (TimeValue 253402300800000).

Definition lateFile : BooksFile :=
  BooksJson [Stored.mk "1" "Dune" "Herbert" "978-0" 1965 "SciFi" "..." GOOD
               false true None "+010000-01-01"].

Definition duneBook : Book :=
  mkBook "1" "Dune" "Herbert" "978-0" 1965 "SciFi" "..." GOOD
         false true None (TimeValue 1699920000000).

(** *** A store with a time of day *)

(** [Date.parse] on the full form of the Date Time String Format that
    [toISOString] writes, [YYYY-MM-DDTHH:mm:ss.sssZ] (the hour 24 stands
    for the end of the day): one way for [new Date] to read a string that
    is not a date-only form. *)
Definition parseUtcDateTime (s : string) : option Z :=
  match list_ascii_of_string s with
  | [y1; y2; y3; y4; s1; m1; m2; s2; d1; d2; t;
     h1; h2; c1; n1; n2; c2; e1; e2; dot; f1; f2; f3; z] =>
      if Ascii.eqb s1 "-" && Ascii.eqb s2 "-" && Ascii.eqb t "T"
         && Ascii.eqb c1 ":" && Ascii.eqb c2 ":" && Ascii.eqb dot "."
         && Ascii.eqb z "Z"
      then
        match parseFields 1 [y1; y2; y3; y4] [m1; m2] [d1; d2],
              digitsValue 0 [h1; h2], digitsValue 0 [n1; n2],
              digitsValue 0 [e1; e2], digitsValue 0 [f1; f2; f3] with
        | Some day, Some h, Some mi, Some sec, Some ms =>
            if ((h <? 24) || ((h =? 24) && (mi =? 0) && (sec =? 0) && (ms =? 0)))
               && (mi <? 60) && (sec <? 60)
            then Some (day + h * 3600000 + mi * 60000 + sec * 1000 + ms)
            else None
        | _, _, _, _, _ => None
        end
      else None
  | _ => None
  end.

(** A store, written by hand, whose book carries the time of its
    creation. *)
Definition stampedFile : BooksFile :=
  BooksJson [Stored.mk "1" "Dune" "Herbert" "978-0" 1965 "SciFi" "..." GOOD
               false true None "2023-11-14T22:13:20.123Z"].

Definition stampedBook : Book :=
  mkBook "1" "Dune" "Herbert" "978-0" 1965 "SciFi" "..." GOOD
         false true None (TimeValue 1700000000123).

(** A store whose second book carries a time of day. *)
Definition mixedFile : BooksFile :=
  BooksJson [Stored.mk "1" "Dune" "Herbert" "978-0" 1965 "SciFi" "..." GOOD
               false true None "2023-11-14";
             Stored.mk "2" "Emma" "Austen" "978-1" 1815 "Novel" "A comedy" FAIR
               false true None "2023-11-14T22:13:20.123Z"].

Definition stampedEmma : Book :=
  mkBook "2" "Emma" "Austen" "978-1" 1815 "Novel" "A comedy" FAIR
         false true None (TimeValue 1700000000123).

(** A store whose second book has a date that is no date. *)
Definition halfBrokenFile : BooksFile :=
  BooksJson [Stored.mk "1" "Dune" "Herbert" "978-0" 1965 "SciFi" "..." GOOD
               false true None "2023-11-14";
             Stored.mk "2" "Emma" "Austen" "978-1" 1815 "Novel" "A comedy" FAIR
               false true None "soon"].

(** *** More sample data *)

(** A store whose only book has a date that is no date. *)
Definition brokenFile : BooksFile :=
  BooksJson [Stored.mk "1" "Dune" "Herbert" "978-0" 1965 "SciFi" "..." GOOD
               false true None "soon"].

(** A store from which the first of two books was deleted by hand. *)
Definition gapFile : BooksFile :=
  BooksJson [Stored.mk "2" "Emma" "Austen" "978-1" 1815 "Novel" "A comedy" FAIR
               false true None "2023-11-14"].

Definition emmaBook : Book :=
  mkBook "2" "Emma" "Austen" "978-1" 1815 "Novel" "A comedy" FAIR
         false true None (TimeValue 1699920000000).

(** Two books, the second one checked out. *)
Definition twoBooksFile : BooksFile :=
  BooksJson [Stored.mk "1" "Dune" "Herbert" "978-0" 1965 "SciFi" "..." GOOD
               false true None "2023-11-14";
             Stored.mk "2" "Emma" "Austen" "978-1" 1815 "Novel" "A comedy" FAIR
               true true (Some "2023-11-14") "2023-11-14"].

Definition emmaOutBook : Book :=
  mkBook "2" "Emma" "Austen" "978-1" 1815 "Novel" "A comedy" FAIR
         true true (Some (TimeValue 1699920000000)) (TimeValue 1699920000000).

Definition brokenBook : Book :=
  mkBook "1" "Dune" "Herbert" "978-0" 1965 "SciFi" "..." GOOD
         false true None InvalidDate.

(** The store of one book after it has been removed. *)
Definition removedFile : BooksFile :=
  BooksJson [Stored.mk "1" "Dune" "Herbert" "978-0" 1965 "SciFi" "..." GOOD
               false false None "2023-11-14"].

Definition removedBook : Book :=
  mkBook "1" "Dune" "Herbert" "978-0" 1965 "SciFi" "..." GOOD
         false false None (TimeValue 1699920000000).

(* ===================================================================== *)
(** ** The pages and components that call the actions                     *)
(* ===================================================================== *)

(** A component is modelled by the state of its [useState] hooks and by
    its handlers; the markup is left out, except for what decides which
    part of it is shown. An [async] handler that awaits a rejected action
    stops there: the state updates behind the [await] are not made. *)
Definition runHandler {S : Type} (handler : S -> Action S) (st : S)
    (env : Env) (file : BooksFile) : S * BooksFile :=
  match handler st env file with
  | (Ok st', file') => (st', file')
  | (Err _, file') => (st, file')
  end.

(** [app/ui/BookList.tsx] *)
Module BookList.
Section WithParse.
Variable otherParse : string -> option Z.

Record State : Type := mk { showConfirm : bool; bookToRemove : option Book }.

Definition initial : State := mk false None.


Definition statusText (book : Book) : string :=
  if isCheckedOut book then "Checked Out" else "Available".

Definition checkoutLabel (book : Book) : string :=
  if isCheckedOut book then "Check In" else "Check Out".

Definition handleCheckout (bookId : string) (st : State) : Action State :=
  toggleCheckoutStatus otherParse bookId ;;; ret st.




End WithParse.
End BookList.

(** [app/books/[id]/page.tsx] *)
Module BookPage.
Section WithParse.
Variable otherParse : string -> option Z.

Record State : Type := mk {
  book : option Book;
  loading : bool;
  showConfirm : bool
}.

Definition initial : State := mk None true false.

(** The effect that runs when the page is shown; [bookData || null]. *)
Definition loadBook (bookId : string) (st : State) : Action State :=
  bookData <- getBook otherParse bookId ;;
  ret (mk bookData false (showConfirm st)).

(** Which of the three returns of the component is taken. *)
Inductive View : Type :=
  | Loading
  | BookNotFound
  | Details (shown : Book) (confirmOpen : bool).

Definition render (st : State) : View :=
  if loading st then Loading
  else match book st with
       | None => BookNotFound
       | Some shown => Details shown (showConfirm st)
       end.

(** Fulfils with the path given to [router.push]. *)
Definition handleRemove (bookId : string) : Action string :=
  markBookInactive otherParse bookId ;;;
  ret "/books".

Definition handleCheckout (bookId : string) (st : State) : Action State :=
  toggleCheckoutStatus otherParse bookId ;;;
  updatedBook <- getBook otherParse bookId ;;
  ret (mk updatedBook (loading st) (showConfirm st)).

End WithParse.
End BookPage.

(** [app/books/edit/[id]/page.tsx] *)
Module EditBookPage.
Section WithParse.
Variable otherParse : string -> option Z.

Record State : Type := mk {
  book : option Book;
  loading : bool;
  formData : AddBookData.t
}.

(** [year] is [new Date().getFullYear()] when the page is shown. *)
Definition initial (year : Z) : State :=
  mk None true
     (AddBookData.mk EmptyString EmptyString EmptyString year EmptyString EmptyString GOOD).

(** The form filled with the values of a book. *)
Definition formOf (bookData : Book) : AddBookData.t :=
  AddBookData.mk (title bookData) (author bookData) (isbn bookData)
    (publishedYear bookData) (genre bookData) (description bookData)
    (condition bookData).

Definition loadBook (bookId : string) (st : State) : Action State :=
  bookData <- getBook otherParse bookId ;;
  ret (mk bookData false
          match bookData with
          | Some found => formOf found
          | None => formData st
          end).

(** [onChange] of the title field. *)
Definition changeTitle (value : string) (st : State) : State :=
  mk (book st) (loading st)
     (AddBookData.mk value (AddBookData.author (formData st))
        (AddBookData.isbn (formData st)) (AddBookData.publishedYear (formData st))
        (AddBookData.genre (formData st)) (AddBookData.description (formData st))
        (AddBookData.condition (formData st))).

(** Fulfils with the path given to [router.push]. *)
Definition handleSubmit (bookId : string) (st : State) : Action string :=
  updateBook otherParse bookId (formData st) ;;;
  ret ("/books/" ++ bookId)%string.

End WithParse.
End EditBookPage.

(* ===================================================================== *)
(** ** Facts about the Date model                                         *)
(* ===================================================================== *)

Module JsDateFacts.

Lemma validTime_bounds t : validTime t = true <-> - maxTime <= t <= maxTime.
Proof. unfold validTime. rewrite andb_true_iff, !Z.leb_le. tauto. Qed.

Lemma DayFromYear_step y : DayFromYear (y + 1) = DayFromYear y + DaysInYear y.
Proof.
  unfold DayFromYear, DaysInYear, isLeapYear.
  repeat match goal with
         | |- context [?x =? ?y] => case (Z.eqb_spec x y); intro
         end; simpl; Z.div_mod_to_equations; lia.
Qed.

(** [YearFromDay d] is the year that contains day [d]. *)
Lemma YearFromDay_spec d :
  DayFromYear (YearFromDay d) <= d < DayFromYear (YearFromDay d + 1).
Proof.
  unfold YearFromDay.
  set (y := 1970 + 400 * d / 146097).
  assert (Hy : DayFromYear (y - 1) <= d < DayFromYear (y + 2)).
  { unfold DayFromYear, y. Z.div_mod_to_equations. lia. }
  destruct (Z.leb_spec (DayFromYear (y + 1)) d).
  - replace (y + 1 + 1) with (y + 2) by lia. lia.
  - destruct (Z.leb_spec (DayFromYear y) d).
    + lia.
    + replace (y - 1 + 1) with y by lia. lia.
Qed.

Lemma Day_range t : validTime t = true -> -100000000 <= Day t <= 100000000.
Proof.
  rewrite validTime_bounds. unfold Day, maxTime, msPerDay.
  intros H. Z.div_mod_to_equations. lia.
Qed.

Lemma YearFromTime_range t :
  validTime t = true -> -271821 <= YearFromTime t <= 275760.
Proof.
  intros H%Day_range. unfold YearFromTime.
  pose proof (YearFromDay_spec (Day t)) as Hs.
  revert Hs. generalize (YearFromDay (Day t)). intros y.
  unfold DayFromYear. intros Hs. Z.div_mod_to_equations. lia.
Qed.

Lemma InLeapYear_cases t : InLeapYear t = 0 \/ InLeapYear t = 1.
Proof. unfold InLeapYear. destruct (isLeapYear _); auto. Qed.

Lemma DayWithinYear_range t : 0 <= DayWithinYear t < 365 + InLeapYear t.
Proof.
  unfold DayWithinYear, InLeapYear, YearFromTime.
  pose proof (YearFromDay_spec (Day t)) as Hs.
  rewrite DayFromYear_step in Hs. unfold DaysInYear in Hs.
  destruct (isLeapYear _); lia.
Qed.

Ltac split_ifs :=
  repeat match goal with
         | |- context [?x <? ?y] => case (Z.ltb_spec x y); intro
         | |- context [?x =? ?y] => case (Z.eqb_spec x y); intro
         | |- context [?x <=? ?y] => case (Z.leb_spec x y); intro
         end.

(** The month found for a day of the year does contain it. *)
Lemma monthOfYearDay_spec leap d :
  0 <= leap <= 1 -> 0 <= d < 365 + leap ->
  0 <= monthOfYearDay leap d <= 11
  /\ monthStart leap (monthOfYearDay leap d) <= d
     < monthStart leap (monthOfYearDay leap d + 1).
Proof.
  intros Hl Hd. unfold monthOfYearDay.
  split_ifs; unfold monthStart; simpl; lia.
Qed.

Lemma MonthFromTime_range t : 0 <= MonthFromTime t <= 11.
Proof.
  unfold MonthFromTime.
  apply monthOfYearDay_spec; [destruct (InLeapYear_cases t); lia|].
  apply DayWithinYear_range.
Qed.

Lemma monthStart_length leap m :
  0 <= leap <= 1 -> 0 <= m <= 11 ->
  28 <= monthStart leap (m + 1) - monthStart leap m <= 31.
Proof.
  intros Hl Hm. rewrite <- (Z2Nat.id m) by lia.
  assert (Hk : (Z.to_nat m < 12)%nat) by lia.
  revert Hk. generalize (Z.to_nat m). intros k Hk.
  do 12 (destruct k as [|k]; [unfold monthStart; simpl; lia|]). lia.
Qed.

Lemma DateFromTime_range t : 1 <= DateFromTime t <= 31.
Proof.
  unfold DateFromTime, MonthFromTime.
  assert (Hl : 0 <= InLeapYear t <= 1) by (destruct (InLeapYear_cases t); lia).
  pose proof (monthOfYearDay_spec _ _ Hl (DayWithinYear_range t)) as [Hm Hd].
  pose proof (monthStart_length _ _ Hl Hm). lia.
Qed.

(** The calendar fields of a time value denote its day. *)
Lemma MakeDate_fields t :
  MakeDate (YearFromTime t) (MonthFromTime t + 1) (DateFromTime t)
  = Some (msPerDay * Day t).
Proof.
  unfold MakeDate, DaysInMonth.
  assert (Hl : 0 <= InLeapYear t <= 1) by (destruct (InLeapYear_cases t); lia).
  pose proof (monthOfYearDay_spec _ _ Hl (DayWithinYear_range t)) as [Hm Hd].
  fold (MonthFromTime t) in Hm, Hd.
  unfold DateFromTime. fold (InLeapYear t).
  replace (MonthFromTime t + 1 - 1) with (MonthFromTime t) by lia.
  rewrite (proj2 (andb_true_iff _ _)).
  - f_equal. unfold DayWithinYear. f_equal. lia.
  - rewrite !andb_true_iff, !Z.leb_le. lia.
Qed.

(** Everything in the date part depends on the day only. *)
Lemma Day_startOfDay t : Day (msPerDay * Day t) = Day t.
Proof. unfold Day, msPerDay. Z.div_mod_to_equations. lia. Qed.

Lemma validTime_startOfDay t :
  validTime t = true -> validTime (msPerDay * Day t) = true.
Proof.
  rewrite !validTime_bounds. unfold Day, maxTime, msPerDay.
  intros H. Z.div_mod_to_equations. lia.
Qed.

Lemma dateField_startOfDay t : dateField (msPerDay * Day t) = dateField t.
Proof.
  unfold dateField, DateFromTime, MonthFromTime, InLeapYear, DayWithinYear, YearFromTime.
  now rewrite Day_startOfDay.
Qed.

(** *** Digits and fields *)

Lemma digitValue_digit n : 0 <= n <= 9 -> digitValue (digit n) = Some n.
Proof.
  intros Hn. rewrite <- (Z2Nat.id n) by lia.
  assert (Hk : (Z.to_nat n < 10)%nat) by lia.
  revert Hk. generalize (Z.to_nat n). intros k Hk.
  do 10 (destruct k as [|k]; [reflexivity|]). lia.
Qed.

Lemma digitValue_mod n : digitValue (digit (n mod 10)) = Some (n mod 10).
Proof. apply digitValue_digit. pose proof (Z.mod_pos_bound n 10). lia. Qed.

Lemma isDigit_mod n : isDigit (digit (n mod 10)) = true.
Proof. unfold isDigit. now rewrite digitValue_mod. Qed.

Lemma digit_not_T n : digit (n mod 10) <> "T"%char.
Proof. intros H. pose proof (isDigit_mod n) as Hd. rewrite H in Hd. discriminate. Qed.

Lemma digitsValue_pad2 n : 0 <= n < 100 -> digitsValue 0 (pad2 n) = Some n.
Proof.
  intros Hn. unfold pad2. cbn [digitsValue]. rewrite !digitValue_mod.
  f_equal. Z.div_mod_to_equations. lia.
Qed.

Lemma digitsValue_pad4 n : 0 <= n < 10000 -> digitsValue 0 (pad4 n) = Some n.
Proof.
  intros Hn. unfold pad4, pad3, pad2. cbn [digitsValue]. rewrite !digitValue_mod.
  f_equal. Z.div_mod_to_equations. lia.
Qed.

Lemma digitsValue_pad6 n : 0 <= n < 1000000 -> digitsValue 0 (pad6 n) = Some n.
Proof.
  intros Hn. unfold pad6, pad4, pad3, pad2. cbn [digitsValue]. rewrite !digitValue_mod.
  f_equal. Z.div_mod_to_equations. lia.
Qed.

Lemma parseFields_fields sign ys t :
  digitsValue 0 ys = Some (sign * YearFromTime t) -> sign * sign = 1 ->
  parseFields sign ys (pad2 (MonthFromTime t + 1)) (pad2 (DateFromTime t))
  = Some (msPerDay * Day t).
Proof.
  intros Hy Hs. unfold parseFields.
  pose proof (MonthFromTime_range t). pose proof (DateFromTime_range t).
  rewrite Hy, !digitsValue_pad2 by lia.
  rewrite Z.mul_assoc, Hs, Z.mul_1_l.
  apply MakeDate_fields.
Qed.

(** [new Date] reads the date part of [toISOString] as midnight of that day. *)
Lemma parseDateOnly_dateString t :
  validTime t = true -> parseDateOnly (dateString t) = Some (msPerDay * Day t).
Proof.
  intros Hv. pose proof (YearFromTime_range t Hv) as Hy.
  unfold parseDateOnly, dateString.
  rewrite list_ascii_of_string_of_list_ascii.
  unfold dateField, yearField.
  destruct (Z.leb_spec 0 (YearFromTime t)) as [H0|H0]; cbn [andb].
  - destruct (Z.leb_spec (YearFromTime t) 9999) as [H1|H1].
    + unfold pad4 at 1, pad3 at 1, pad2 at 1. cbn [app]. unfold pad2 at 1. cbn [app].
      unfold pad2 at 1. cbv beta iota.
      change (Ascii.eqb "-" "-") with true. cbn [andb].
      match goal with
      | |- parseFields 1 ?ys ?ms ?ds = _ =>
          change ys with (pad4 (YearFromTime t));
          change ms with (pad2 (MonthFromTime t + 1));
          change ds with (pad2 (DateFromTime t))
      end.
      apply parseFields_fields; [|lia].
      rewrite digitsValue_pad4 by lia. f_equal. lia.
    + unfold pad6 at 1, pad4 at 1, pad3 at 1, pad2 at 1. cbn [app]. unfold pad2 at 1. cbn [app].
      unfold pad2 at 1. cbv beta iota.
      change (Ascii.eqb "-" "-") with true. change (Ascii.eqb "+" "+") with true.
      cbn [andb].
      match goal with
      | |- parseFields 1 ?ys ?ms ?ds = _ =>
          change ys with (pad6 (YearFromTime t));
          change ms with (pad2 (MonthFromTime t + 1));
          change ds with (pad2 (DateFromTime t))
      end.
      apply parseFields_fields; [|lia].
      rewrite digitsValue_pad6 by lia. f_equal. lia.
  - unfold pad6 at 1, pad4 at 1, pad3 at 1, pad2 at 1. cbn [app]. unfold pad2 at 1. cbn [app].
    unfold pad2 at 1. cbv beta iota.
    change (Ascii.eqb "-" "-") with true. change (Ascii.eqb "-" "+") with false.
    cbn [andb].
    match goal with
    | |- context [parseFields (-1) ?ys ?ms ?ds] =>
        change ys with (pad6 (- YearFromTime t));
        change ms with (pad2 (MonthFromTime t + 1));
        change ds with (pad2 (DateFromTime t))
    end.
    rewrite digitsValue_pad6 by lia.
    destruct (- YearFromTime t) as [|p|p] eqn:Hn; [lia| |lia].
    apply parseFields_fields; [|lia].
    rewrite <- Hn. rewrite digitsValue_pad6 by lia. f_equal; lia.
Qed.

(** *** The date part of [toISOString] *)

Lemma beforeT_prefix (l rest : list ascii) :
  Forall (fun c => c <> "T"%char) l ->
  beforeT (string_of_list_ascii (l ++ "T"%char :: rest)%list) = string_of_list_ascii l.
Proof.
  induction 1 as [|c l Hc _ IH]; cbn [app string_of_list_ascii beforeT].
  - reflexivity.
  - destruct (Ascii.eqb_spec c "T") as [->|_]; [contradiction|]. now rewrite IH.
Qed.

Lemma yearField_not_T y : Forall (fun c => c <> "T"%char) (yearField y).
Proof.
  unfold yearField, pad6, pad4, pad3, pad2.
  destruct (_ && _); [|destruct (0 <=? y)];
    repeat (constructor; [first [apply digit_not_T | discriminate]|]); constructor.
Qed.

Lemma dateField_not_T t : Forall (fun c => c <> "T"%char) (dateField t).
Proof.
  unfold dateField, pad2. apply Forall_app. split; [apply yearField_not_T|].
  repeat (constructor; [first [apply digit_not_T | discriminate]|]); constructor.
Qed.

Lemma dateOnly_valid t : validTime t = true -> dateOnly (TimeValue t) = Some (dateString t).
Proof.
  intros Hv. unfold dateOnly, toISOString. rewrite Hv.
  f_equal. apply beforeT_prefix, dateField_not_T.
Qed.

Lemma dateOnly_Some d s :
  dateOnly d = Some s -> exists t, d = TimeValue t /\ validTime t = true /\ s = dateString t.
Proof.
  destruct d as [|t]; [discriminate|]. unfold dateOnly, toISOString.
  destruct (validTime t) eqn:Hv; [|discriminate].
  intros [= <-]. exists t. repeat split; [done|].
  apply beforeT_prefix, dateField_not_T.
Qed.

Lemma dateString_startOfDay t : dateString (msPerDay * Day t) = dateString t.
Proof. unfold dateString. now rewrite dateField_startOfDay. Qed.

Lemma isDateOnlyString_dateString t :
  validTime t = true -> isDateOnlyString (dateString t) = true.
Proof.
  intros Hv. unfold isDateOnlyString.
  rewrite parseDateOnly_dateString by done.
  rewrite dateOnly_valid by now apply validTime_startOfDay.
  rewrite dateString_startOfDay. apply String.eqb_refl.
Qed.

Lemma dateString_nonempty t : String.eqb (dateString t) EmptyString = false.
Proof.
  unfold dateString, dateField, yearField, pad6, pad4.
  destruct (_ && _); [|destruct (0 <=? _)]; reflexivity.
Qed.

(** The two shapes of the date part. *)
Lemma dateString_YYYYMMDD t :
  0 <= YearFromTime t <= 9999 -> isYYYYMMDD (dateString t) = true.
Proof.
  intros Hy. unfold isYYYYMMDD, dateString.
  rewrite list_ascii_of_string_of_list_ascii.
  unfold dateField, yearField.
  rewrite (proj2 (andb_true_iff _ _)) by (rewrite !Z.leb_le; lia).
  unfold pad4, pad3, pad2. cbn [app forallb]. cbv beta iota.
  rewrite !isDigit_mod. reflexivity.
Qed.

Lemma dateString_expanded t :
  ~ 0 <= YearFromTime t <= 9999 ->
  isExpandedYearDate (dateString t) = true /\ isYYYYMMDD (dateString t) = false.
Proof.
  intros Hy. unfold isExpandedYearDate, isYYYYMMDD, dateString.
  rewrite list_ascii_of_string_of_list_ascii.
  unfold dateField, yearField.
  destruct (Z.leb_spec 0 (YearFromTime t)); cbn [andb].
  - destruct (Z.leb_spec (YearFromTime t) 9999); [lia|].
    unfold pad6, pad4, pad3, pad2. cbn [app forallb]. cbv beta iota.
    rewrite !isDigit_mod. split; reflexivity.
  - unfold pad6, pad4, pad3, pad2. cbn [app forallb]. cbv beta iota.
    rewrite !isDigit_mod. split; reflexivity.
Qed.

Section ParseFacts.
Variable otherParse : string -> option Z.

Lemma newDate_dateString t :
  validTime t = true ->
  newDate otherParse (dateString t) = TimeValue (msPerDay * Day t).
Proof.
  intros Hv. unfold newDate, TimeClip.
  rewrite parseDateOnly_dateString by done.
  now rewrite validTime_startOfDay.
Qed.

(** A date-only string of the store is read and written back unchanged. *)
Lemma isDateOnlyString_inv s :
  isDateOnlyString s = true ->
  exists t, validTime t = true /\ newDate otherParse s = TimeValue t
            /\ dateOnly (TimeValue t) = Some s /\ String.eqb s EmptyString = false.
Proof.
  unfold isDateOnlyString, newDate.
  destruct (parseDateOnly s) as [t|]; [|discriminate].
  destruct (dateOnly (TimeValue t)) as [s'|] eqn:Hd; [|discriminate].
  intros ->%String.eqb_eq.
  destruct (dateOnly_Some _ _ Hd) as (t' & [= <-] & Hv & Hs).
  exists t. unfold TimeClip. rewrite Hv. repeat split; [done|].
  rewrite Hs. apply dateString_nonempty.
Qed.
End ParseFacts.

End JsDateFacts.


(* ===================================================================== *)
(** ** Facts about the two file helpers                                   *)
(* ===================================================================== *)

Import JsDateFacts.

Section Persistence.
Variable otherParse : string -> option Z.

Lemma readBooksFromFile_loadAll env file :
  readBooksFromFile otherParse env file = (Ok (loadAll otherParse file), file).
Proof. now destruct file. Qed.

Lemma loadAll_storedBooks file :
  loadAll otherParse file = loadBook otherParse <$> storedBooks file.
Proof. now destruct file. Qed.

(** What is saved of a book, read back. *)
Lemma loadBook_bookToSave b s :
  bookToSave b = Some s ->
  loadBook otherParse s = asSaved b /\ storedDatesOk s = true.
Proof.
  unfold bookToSave.
  destruct (dateOnly (addedDate b)) as [added|] eqn:Ha; [|discriminate].
  destruct (dateOnly_Some _ _ Ha) as (t & Et & Hv & ->).
  destruct (lastCheckedOutDate b) as [d|] eqn:El.
  - destruct (dateOnly d) as [last|] eqn:Hl; [|discriminate].
    destruct (dateOnly_Some _ _ Hl) as (t' & -> & Hv' & ->).
    intros [= <-]. unfold loadBook, asSaved, storedDatesOk. cbn.
    rewrite dateString_nonempty, !newDate_dateString, !isDateOnlyString_dateString by done.
    rewrite Et, El. done.
  - intros [= <-]. unfold loadBook, asSaved, storedDatesOk. cbn.
    rewrite !newDate_dateString, !isDateOnlyString_dateString by done.
    rewrite Et, El. done.
Qed.

(** A book of a store in the format is written back as it was. *)
Lemma bookToSave_loadBook s :
  storedDatesOk s = true -> bookToSave (loadBook otherParse s) = Some s.
Proof.
  unfold storedDatesOk. intros [Ha Hl]%andb_true_iff.
  destruct (isDateOnlyString_inv otherParse _ Ha) as (t & _ & Et & Ed & _).
  destruct s as [? ? ? ? ? ? ? ? ? ? last added]. cbn in *.
  unfold bookToSave, loadBook. cbn. rewrite Et, Ed.
  destruct last as [l|]; [|done].
  destruct (isDateOnlyString_inv otherParse _ Hl) as (t' & _ & Et' & Ed' & ->).
  now rewrite Et', Ed'.
Qed.

Lemma asSaved_loadBook s :
  storedDatesOk s = true -> asSaved (loadBook otherParse s) = loadBook otherParse s.
Proof.
  intros H%bookToSave_loadBook. now destruct (loadBook_bookToSave _ _ H) as [E _].
Qed.

Lemma booksToSave_Forall2 books saved :
  booksToSave books = Some saved <->
  Forall2 (fun b s => bookToSave b = Some s) books saved.
Proof.
  revert saved. induction books as [|b books IH]; intros saved; cbn.
  - split; [intros [= <-]; constructor | now inversion 1].
  - destruct (bookToSave b) as [s|] eqn:Hs.
    + destruct (booksToSave books) as [ss|].
      * split.
        -- intros [= <-]. constructor; [done|]. now apply IH.
        -- inversion 1 as [|? s' ? ss' Hb Hbs]; subst.
           apply IH in Hbs. congruence.
      * split; [discriminate|].
        inversion 1 as [|? s' ? ss' Hb Hbs]; subst. now apply IH in Hbs.
    + split; [discriminate|]. inversion 1; congruence.
Qed.

Lemma booksToSave_loadAll file :
  inStoreFormat file = true ->
  booksToSave (loadAll otherParse file) = Some (storedBooks file).
Proof.
  intros Hf. apply booksToSave_Forall2. rewrite loadAll_storedBooks.
  apply Forall2_fmap_l, Forall_Forall2_diag.
  destruct file as [|books]; [constructor|]. cbn in *.
  rewrite forallb_forall in Hf. apply Forall_forall.
  intros s Hs. apply bookToSave_loadBook, Hf. now apply list_elem_of_In.
Qed.

Lemma inStoreFormat_saved books saved :
  booksToSave books = Some saved -> inStoreFormat (BooksJson saved) = true.
Proof.
  intros H%booksToSave_Forall2. cbn.
  induction H as [|b s ? ? Hs _ IH]; [done|]. cbn.
  apply loadBook_bookToSave in Hs as [_ ->]. done.
Qed.

Lemma loadAll_saved books saved :
  booksToSave books = Some saved ->
  loadAll otherParse (BooksJson saved) = asSaved <$> books.
Proof.
  intros H%booksToSave_Forall2. cbn.
  induction H as [|b s ? ? Hs _ IH]; [done|]. cbn in *.
  apply loadBook_bookToSave in Hs as [-> _]. now f_equal.
Qed.

(** The books of a store in the format have their dates at midnight. *)
Lemma asSaved_loadAll file :
  inStoreFormat file = true ->
  asSaved <$> loadAll otherParse file = loadAll otherParse file.
Proof.
  intros Hf. pose proof (booksToSave_loadAll _ Hf) as Hs.
  apply loadAll_saved in Hs. rewrite <- Hs. now destruct file.
Qed.

Lemma asSaved_lookup file k b :
  inStoreFormat file = true -> loadAll otherParse file !! k = Some b -> asSaved b = b.
Proof.
  intros Hf Hk. pose proof (asSaved_loadAll _ Hf) as Hs.
  apply (f_equal (fun l => l !! k)) in Hs.
  rewrite list_lookup_fmap, Hk in Hs. cbn in Hs. congruence.
Qed.

(** The two outcomes of [writeBooksToFile]. *)
Lemma writeBooksToFile_cases books env file :
  (exists saved, booksToSave books = Some saved /\ writeOk env = true
     /\ writeBooksToFile books env file = (Ok tt, BooksJson saved))
  \/ ((booksToSave books = None \/ writeOk env = false)
      /\ writeBooksToFile books env file = (Err "Failed to save books", file)).
Proof.
  unfold writeBooksToFile.
  destruct (booksToSave books) as [saved|]; [|right; auto].
  destruct (writeOk env); [left; eauto | right; auto].
Qed.

(** *** The course of a mutation *)

Lemma bind_revalidate (m : Action unit) (k : Action unit) env file :
  (forall env' file', k env' file' = (Ok tt, file')) ->
  (m ;;; k) env file = m env file.
Proof.
  intros Hk. unfold bind. destruct (m env file) as [[[]|e] file']; [apply Hk|done].
Qed.

Lemma bind_read {B} (k : list Book -> Action B) env file :
  (books <- readBooksFromFile otherParse ;; k books) env file
  = k (loadAll otherParse file) env file.
Proof. unfold bind. now rewrite readBooksFromFile_loadAll. Qed.

Lemma bind_now {B} (k : Date -> Action B) env file :
  (current <- newDateNow ;; k current) env file = k (TimeValue (now env)) env file.
Proof. reflexivity. Qed.

Lemma revalidate_twice path env file :
  (revalidatePath path ;;; revalidatePath "/books") env file = (Ok tt, file).
Proof. reflexivity. Qed.

Lemma perform_replaceFirst m bookId env file :
  targetId m = Some bookId ->
  perform otherParse m env file = replaceFirst otherParse bookId (effect m env) env file.
Proof.
  destruct m; intros [= <-]; cbn [perform effect];
    unfold updateBook, toggleCheckoutStatus, markBookInactive, updateBookCondition,
           replaceFirst;
    rewrite bind_read;
    (destruct (findById _ _) as [[i book]|]; [|done]);
    rewrite ?bind_now; rewrite bind_revalidate; try done;
    intros; apply revalidate_twice.
Qed.

Lemma findById_Some bookId (books : list Book) i book :
  findById bookId books = Some (i, book) ->
  books !! i = Some book /\ id book = bookId /\ (i < length books)%nat.
Proof.
  unfold findById. intros (Hi & Hid & _)%list_find_Some.
  repeat split; [done..|]. now apply lookup_lt_Some in Hi.
Qed.

(** Replacing the found book by one with the same id does not move it. *)
Lemma findById_insert bookId (books : list Book) i book book' :
  findById bookId books = Some (i, book) -> id book' = id book ->
  findById bookId (<[i := book']> books) = Some (i, book').
Proof.
  unfold findById. intros (Hi & Hid & Hfirst)%list_find_Some Hid'.
  apply list_find_Some. split_and!.
  - apply list_lookup_insert_eq. now apply lookup_lt_Some in Hi.
  - congruence.
  - intros j y Hj Hlt. rewrite list_lookup_insert_ne in Hj by lia. eauto.
Qed.

Lemma findById_None bookId (books : list Book) :
  findById bookId books = None <-> Forall (fun b => id b <> bookId) books.
Proof. unfold findById. apply list_find_None. Qed.

Lemma replaceFirst_absent bookId f env file :
  findById bookId (loadAll otherParse file) = None ->
  replaceFirst otherParse bookId f env file = (Ok tt, file).
Proof. unfold replaceFirst. now intros ->. Qed.

(** The two outcomes of a mutation that found its book. *)
Lemma replaceFirst_found bookId f env file i book :
  inStoreFormat file = true ->
  findById bookId (loadAll otherParse file) = Some (i, book) ->
  (exists s', bookToSave (f book) = Some s' /\ writeOk env = true
     /\ replaceFirst otherParse bookId f env file
        = (Ok tt, BooksJson (<[i := s']> (storedBooks file))))
  \/ ((bookToSave (f book) = None \/ writeOk env = false)
      /\ replaceFirst otherParse bookId f env file
         = (Err "Failed to save books", file)).
Proof.
  intros Hf Hfind. unfold replaceFirst. rewrite Hfind.
  apply findById_Some in Hfind as (Hi & _ & Hlt).
  pose proof (booksToSave_loadAll _ Hf) as Hs.
  apply booksToSave_Forall2 in Hs.
  destruct (writeBooksToFile_cases (<[i := f book]> (loadAll otherParse file)) env file)
    as [(saved & Hsaved & Hw & Hr) | ([Hnone | Hw] & Hr)].
  - left. apply booksToSave_Forall2 in Hsaved.
    destruct (Forall2_lookup_l _ _ _ i (f book) Hsaved) as (s' & Hs' & Hb).
    { now apply list_lookup_insert_eq. }
    exists s'. split_and!; [done..|]. rewrite Hr. do 2 f_equal.
    apply list_eq. intros j. destruct (decide (j = i)) as [->|Hne].
    + rewrite list_lookup_insert_eq; [done|].
      rewrite <- (Forall2_length _ _ _ Hs). done.
    + rewrite list_lookup_insert_ne by done.
      destruct (loadAll otherParse file !! j) as [b|] eqn:Hj.
      * destruct (Forall2_lookup_l _ _ _ j b Hsaved) as (s1 & Hs1 & Hb1).
        { now rewrite list_lookup_insert_ne. }
        destruct (Forall2_lookup_l _ _ _ j b Hs Hj) as (s2 & Hs2 & Hb2).
        congruence.
      * apply lookup_ge_None in Hj.
        rewrite (proj2 (lookup_ge_None _ _)), (proj2 (lookup_ge_None _ _)); [done|..].
        -- rewrite <- (Forall2_length _ _ _ Hs). done.
        -- rewrite <- (Forall2_length _ _ _ Hsaved), length_insert. done.
  - destruct (bookToSave (f book)) as [s'|] eqn:Hb; [|right; auto].
    exfalso. pose proof (Forall2_insert _ _ _ _ _ i Hs Hb) as H2.
    apply booksToSave_Forall2 in H2. congruence.
  - right. auto.
Qed.

(** The collection after a mutation that succeeded. *)
Lemma loadAll_replaced file i (book' : Book) s' :
  bookToSave book' = Some s' ->
  loadAll otherParse (BooksJson (<[i := s']> (storedBooks file)))
  = <[i := asSaved book']> (loadAll otherParse file).
Proof.
  intros [<- _]%loadBook_bookToSave. rewrite (loadAll_storedBooks file).
  cbn. now rewrite list_fmap_insert.
Qed.

Lemma inStoreFormat_replaced file i (book' : Book) s' :
  inStoreFormat file = true -> bookToSave book' = Some s' ->
  inStoreFormat (BooksJson (<[i := s']> (storedBooks file))) = true.
Proof.
  intros Hf [_ Hs]%loadBook_bookToSave. cbn.
  apply forallb_forall. intros s Hin%list_elem_of_In.
  apply list_elem_of_lookup in Hin as [j Hj].
  destruct (decide (j = i)) as [->|Hne].
  - destruct (decide (i < length (storedBooks file))%nat).
    + rewrite list_lookup_insert_eq in Hj by done. congruence.
    + rewrite list_insert_ge in Hj by lia. apply lookup_lt_Some in Hj. lia.
  - rewrite list_lookup_insert_ne in Hj by done.
    destruct file as [|books]; [done|]. cbn in *.
    rewrite forallb_forall in Hf. apply Hf, list_elem_of_In.
    apply list_elem_of_lookup. eauto.
Qed.

End Persistence.

(* ===================================================================== *)
(** ** The mutations                                                      *)
(* ===================================================================== *)

Section Mutations.
Variable otherParse : string -> option Z.

(** A book found in a store in the format can be saved and has its
    dates at midnight. *)
Lemma found_in_format file bookId i book :
  inStoreFormat file = true ->
  findById bookId (loadAll otherParse file) = Some (i, book) ->
  asSaved book = book /\ is_Some (bookToSave book).
Proof.
  intros Hf (Hi & _ & _)%findById_Some. split.
  - eapply asSaved_lookup; eauto.
  - pose proof (booksToSave_loadAll otherParse _ Hf) as Hs.
    apply booksToSave_Forall2 in Hs.
    destruct (Forall2_lookup_l _ _ _ i book Hs Hi) as (s & _ & Hb). eauto.
Qed.

(** A change that keeps the two dates keeps the book savable. *)
Lemma bookToSave_same_dates (b b' : Book) :
  addedDate b' = addedDate b -> lastCheckedOutDate b' = lastCheckedOutDate b ->
  is_Some (bookToSave b) -> is_Some (bookToSave b').
Proof.
  unfold bookToSave. intros -> -> [s Hs].
  destruct (dateOnly (addedDate b)); [|discriminate].
  destruct (lastCheckedOutDate b) as [d|]; [|eauto].
  destruct (dateOnly d); [eauto|discriminate].
Qed.

Lemma bookToSave_toggled (b : Book) t :
  validTime t = true -> is_Some (bookToSave b) ->
  is_Some (bookToSave (toggled b (TimeValue t))).
Proof.
  unfold bookToSave. intros Hv [s Hs]. cbn.
  destruct (dateOnly (addedDate b)); [|discriminate].
  destruct (negb (isCheckedOut b)); [|eauto].
  rewrite dateOnly_valid by done. eauto.
Qed.

(** A mutation that finds its book in a store in the format, keeps the
    id, leaves a savable book and can write, replaces that book. *)
Lemma replaceFirst_succeeds bookId f env file i book :
  inStoreFormat file = true -> writeOk env = true ->
  findById bookId (loadAll otherParse file) = Some (i, book) ->
  is_Some (bookToSave (f book)) ->
  exists file',
    replaceFirst otherParse bookId f env file = (Ok tt, file')
    /\ inStoreFormat file' = true
    /\ loadAll otherParse file' = <[i := asSaved (f book)]> (loadAll otherParse file).
Proof.
  intros Hf Hw Hfind [s' Hs'].
  destruct (replaceFirst_found otherParse bookId f env file i book Hf Hfind)
    as [(s'' & Hs'' & _ & Hr) | ([Hn | Hn] & _)]; [|congruence..].
  eexists. split_and!; [exact Hr|..].
  - eapply inStoreFormat_replaced; eauto.
  - eapply loadAll_replaced; eauto.
Qed.

Lemma updateBook_replaceFirst bookId data env file :
  updateBook otherParse bookId data env file
  = replaceFirst otherParse bookId (fun b => withData b data) env file.
Proof. exact (perform_replaceFirst otherParse (Update bookId data) _ _ _ eq_refl). Qed.

Lemma toggleCheckoutStatus_replaceFirst bookId env file :
  toggleCheckoutStatus otherParse bookId env file
  = replaceFirst otherParse bookId (fun b => toggled b (TimeValue (now env))) env file.
Proof. exact (perform_replaceFirst otherParse (ToggleCheckout bookId) _ _ _ eq_refl). Qed.

Lemma markBookInactive_replaceFirst bookId env file :
  markBookInactive otherParse bookId env file
  = replaceFirst otherParse bookId inactive env file.
Proof. exact (perform_replaceFirst otherParse (SetInactive bookId) _ _ _ eq_refl). Qed.

Lemma updateBookCondition_replaceFirst bookId c env file :
  updateBookCondition otherParse bookId c env file
  = replaceFirst otherParse bookId (fun b => withCondition b c) env file.
Proof. exact (perform_replaceFirst otherParse (UpdateCondition bookId c) _ _ _ eq_refl). Qed.

Lemma getBook_findById bookId env file :
  getBook otherParse bookId env file
  = (Ok (snd <$> findById bookId (loadAll otherParse file)), file).
Proof. unfold getBook. now rewrite bind_read. Qed.

Lemma getActiveBooks_filter env file :
  getActiveBooks otherParse env file
  = (Ok (List.filter isActive (loadAll otherParse file)), file).
Proof. unfold getActiveBooks. now rewrite bind_read. Qed.

(** *** Outcomes on any file *)

Lemma writeBooksToFile_effect books env file :
  (exists file', writeBooksToFile books env file = (Ok tt, file')
     /\ writeOk env = true /\ is_Some (booksToSave books)
     /\ inStoreFormat file' = true
     /\ loadAll otherParse file' = asSaved <$> books)
  \/ ((booksToSave books = None \/ writeOk env = false)
      /\ writeBooksToFile books env file = (Err "Failed to save books", file)).
Proof.
  destruct (writeBooksToFile_cases books env file)
    as [(saved & Hs & Hw & Hr) | Herr]; [left|right; done].
  exists (BooksJson saved). split_and!; [done..|eauto| |].
  - eapply inStoreFormat_saved; eauto.
  - now apply loadAll_saved.
Qed.

Lemma addBook_write data env file :
  addBook otherParse data env file
  = writeBooksToFile
      (loadAll otherParse file
         ++ [newBook (length (loadAll otherParse file)) data (TimeValue (now env))])
      env file.
Proof.
  unfold addBook. rewrite bind_read, bind_now. now apply bind_revalidate.
Qed.

Lemma id_effect m env book : id (effect m env book) = id book.
Proof. now destruct m. Qed.

(** The ids of the collection after any call: those before, in place,
    and after an [addBook] that succeeded the new one behind them. *)
Lemma perform_ids m env file :
  id <$> loadAll otherParse (snd (perform otherParse m env file))
  = id <$> loadAll otherParse file
  \/ id <$> loadAll otherParse (snd (perform otherParse m env file))
     = ((id <$> loadAll otherParse file)
          ++ [pretty (length (loadAll otherParse file) + 1)%nat])%list.
Proof.
  destruct (targetId m) as [bookId|] eqn:Ht.
  - left. rewrite (perform_replaceFirst _ _ _ _ _ Ht). unfold replaceFirst.
    destruct (findById _ _) as [[i book]|] eqn:Hfind; [|done].
    destruct (writeBooksToFile_effect
                (<[i := effect m env book]> (loadAll otherParse file)) env file)
      as [(file' & -> & _ & _ & _ & Hl) | (_ & ->)]; [|done].
    cbn. rewrite Hl, <- list_fmap_compose, list_fmap_insert. cbn.
    apply list_insert_id. rewrite list_lookup_fmap.
    apply findById_Some in Hfind as (-> & _ & _). cbn.
    now rewrite id_effect.
  - destruct m; try discriminate. cbn [perform]. rewrite addBook_write.
    match goal with |- context [writeBooksToFile ?books env file] =>
      destruct (writeBooksToFile_effect books env file)
        as [(file' & -> & _ & _ & _ & Hl) | (_ & ->)]
    end; [right|left; done].
    cbn. rewrite Hl, <- list_fmap_compose, fmap_app. done.
Qed.

(** [C5] Errors are handled asymmetrically. A file that cannot be
    read or parsed makes [readBooksFromFile] fulfil with the empty
    array, and it never rejects. A write that fails makes
    [writeBooksToFile] reject with an error, which [addBook] and every
    mutation that found its book pass on to the caller. A mutation keyed
    by an id that no book has fulfils without any sign of it, whether
    or not a write would succeed. *)
Theorem errors_read_absorbed_write_raised :
  (forall env, readBooksFromFile otherParse env Unreadable = (Ok [], Unreadable))
  /\ (forall env file, exists books,
        readBooksFromFile otherParse env file = (Ok books, file))
  /\ (forall books env file,
        writeOk env = false ->
        writeBooksToFile books env file = (Err "Failed to save books", file))
  /\ (forall data env file,
        writeOk env = false ->
        addBook otherParse data env file = (Err "Failed to save books", file))
  /\ (forall m bookId env file i book,
        targetId m = Some bookId -> writeOk env = false ->
        findById bookId (loadAll otherParse file) = Some (i, book) ->
        perform otherParse m env file = (Err "Failed to save books", file))
  /\ (forall m bookId env file,
        targetId m = Some bookId ->
        Forall (fun b => id b <> bookId) (loadAll otherParse file) ->
        perform otherParse m env file = (Ok tt, file)).
Proof.
  assert (Hwrite : forall books env file, writeOk env = false ->
            writeBooksToFile books env file = (Err "Failed to save books", file)).
  { intros books env file Hw. unfold writeBooksToFile. rewrite Hw.
    now destruct (booksToSave books). }
  split_and!.
  - done.
  - intros env file. rewrite readBooksFromFile_loadAll. eauto.
  - exact Hwrite.
  - intros data env file Hw. rewrite addBook_write. now apply Hwrite.
  - intros m bookId env file i book Ht Hw Hfind.
    rewrite (perform_replaceFirst _ _ _ _ _ Ht). unfold replaceFirst.
    rewrite Hfind. now apply Hwrite.
  - intros m bookId env file Ht Hnone%findById_None.
    rewrite (perform_replaceFirst _ _ _ _ _ Ht). now apply replaceFirst_absent.
Qed.

(** The collection after an [addBook] that can write, on a store in the
    format: the new book is behind the others, its date at midnight. *)
Lemma addBook_succeeds data env file :
  inStoreFormat file = true -> writeOk env = true -> validTime (now env) = true ->
  exists file',
    addBook otherParse data env file = (Ok tt, file')
    /\ inStoreFormat file' = true
    /\ loadAll otherParse file'
       = loadAll otherParse file
           ++ [newBook (length (loadAll otherParse file)) data
                 (startOfDay (TimeValue (now env)))].
Proof.
  intros Hf Hw Hv. rewrite addBook_write.
  match goal with |- context [writeBooksToFile ?books env file] =>
    destruct (writeBooksToFile_effect books env file)
      as [(file' & Hr & _ & _ & Hf' & Hl) | ([Hn | Hn] & _)]
  end.
  - exists file'. split_and!; [done..|].
    rewrite Hl, fmap_app, asSaved_loadAll by done. done.
  - exfalso. pose proof (booksToSave_loadAll otherParse _ Hf) as Hs.
    apply booksToSave_Forall2 in Hs.
    assert (Hnew : exists s, bookToSave
              (newBook (length (loadAll otherParse file)) data (TimeValue (now env)))
              = Some s).
    { unfold bookToSave. cbn. rewrite dateOnly_valid by done. eauto. }
    destruct Hnew as [s Hnew].
    assert (H2 : Forall2 (fun b s => bookToSave b = Some s)
              (loadAll otherParse file
                 ++ [newBook (length (loadAll otherParse file)) data (TimeValue (now env))])
              (storedBooks file ++ [s])).
    { apply Forall2_app; [done|]. repeat constructor. done. }
    apply booksToSave_Forall2 in H2. congruence.
  - congruence.
Qed.

(** The ids of a collection grown from nothing are ["1"], ["2"], ... *)
Lemma performAll_ids calls file n :
  id <$> loadAll otherParse file = pretty <$> seq 1 n ->
  exists n', id <$> loadAll otherParse (performAll otherParse calls file)
             = pretty <$> seq 1 n'.
Proof.
  revert file n. induction calls as [|[env m] calls IH]; intros file n Hn; cbn.
  - eauto.
  - destruct (perform_ids m env file) as [Hs | Hs].
    + apply (IH _ n). congruence.
    + apply (IH _ (S n)). rewrite Hs, Hn, seq_S, fmap_app. cbn.
      do 3 f_equal. apply (f_equal length) in Hn.
      rewrite !length_fmap, length_seq in Hn. lia.
Qed.

(** [C8] In the collection that any sequence of [addBook],
    [updateBook], [toggleCheckoutStatus], [markBookInactive] and
    [updateBookCondition] calls makes of an empty one, no two books have
    the same id; and no call, on any collection, changes the id of a
    book that is there. *)
Theorem ids_distinct_and_never_changed :
  (forall file calls,
     loadAll otherParse file = [] ->
     NoDup (id <$> loadAll otherParse (performAll otherParse calls file)))
  /\ (forall m env file k b,
        loadAll otherParse file !! k = Some b ->
        exists b', loadAll otherParse (snd (perform otherParse m env file)) !! k = Some b'
                   /\ id b' = id b).
Proof.
  split.
  - intros file calls Hempty.
    destruct (performAll_ids calls file 0%nat) as [n ->]; [now rewrite Hempty|].
    apply NoDup_fmap_2; [apply _|apply NoDup_seq].
  - intros m env file k b Hk.
    assert (Hid : (id <$> loadAll otherParse file) !! k = Some (id b))
      by now rewrite list_lookup_fmap, Hk.
    assert (Hid' : (id <$> loadAll otherParse (snd (perform otherParse m env file))) !! k
                   = Some (id b)).
    { destruct (perform_ids m env file) as [-> | ->]; [done|].
      now apply lookup_app_l_Some. }
    rewrite list_lookup_fmap in Hid'.
    destruct (loadAll otherParse (snd (perform otherParse m env file)) !! k) as [b'|];
      [|discriminate].
    exists b'. split; [done|]. now injection Hid'.
Qed.

(** *** The [isActive] flag is not looked at *)

Lemma loadAll_setActiveAt k a file :
  loadAll otherParse (setActiveAt k a file)
  = alter (withActive a) k (loadAll otherParse file).
Proof.
  destruct file as [|books]; [done|]. cbn.
  apply list_fmap_alter, Forall_true. done.
Qed.

Lemma bookToSave_withActive a b :
  bookToSave (withActive a b) = setActive a <$> bookToSave b.
Proof.
  unfold bookToSave. cbn.
  destruct (dateOnly (addedDate b)); [|done].
  destruct (lastCheckedOutDate b) as [d|]; [|done].
  now destruct (dateOnly d).
Qed.

Lemma booksToSave_alter a k books :
  booksToSave (alter (withActive a) k books)
  = alter (setActive a) k <$> booksToSave books.
Proof.
  revert k. induction books as [|b books IH]; intros k; [done|].
  destruct k as [|k]; cbn.
  - rewrite bookToSave_withActive.
    destruct (bookToSave b); [|done]. now destruct (booksToSave books).
  - rewrite IH. destruct (bookToSave b); [|done]. now destruct (booksToSave books).
Qed.

Lemma findById_alter bookId a k (books : list Book) :
  findById bookId (alter (withActive a) k books)
  = (fun p => (fst p, if decide (k = fst p) then withActive a (snd p) else snd p))
      <$> findById bookId books.
Proof.
  destruct (findById bookId books) as [[i b]|] eqn:Hfind; cbn.
  - apply list_find_Some in Hfind as (Hi & Hid & Hfirst).
    apply list_find_Some. split_and!.
    + rewrite list_lookup_alter. case_decide; subst; now rewrite Hi.
    + now case_decide.
    + intros j y Hj Hlt. rewrite list_lookup_alter in Hj.
      case_decide; subst.
      * destruct (books !! j) as [z|] eqn:Hz; [|done]. injection Hj as <-.
        cbn. eauto.
      * eauto.
  - apply findById_None in Hfind. apply findById_None.
    apply Forall_lookup. intros j y Hj. rewrite list_lookup_alter in Hj.
    rewrite Forall_lookup in Hfind.
    case_decide; subst.
    + destruct (books !! j) as [z|] eqn:Hz; [|done]. injection Hj as <-.
      cbn. eauto.
    + eauto.
Qed.

(** A mutation whose change of the book does not depend on the flag
    takes the same course whatever the flag of any book is. *)
Lemma replaceFirst_setActiveAt bookId f env file k a :
  (forall b, f (withActive a b) = withActive a (f b)) ->
  replaceFirst otherParse bookId f env (setActiveAt k a file)
  = (fst (replaceFirst otherParse bookId f env file),
     setActiveAt k a (snd (replaceFirst otherParse bookId f env file))).
Proof.
  intros Hcomm. unfold replaceFirst.
  rewrite loadAll_setActiveAt, findById_alter.
  destruct (findById bookId (loadAll otherParse file)) as [[i b]|] eqn:Hfind; cbn;
    [|done].
  apply findById_Some in Hfind as (Hi & _ & Hlt).
  assert (Hl : <[i := f (if decide (k = i) then withActive a b else b)]>
                 (alter (withActive a) k (loadAll otherParse file))
               = alter (withActive a) k (<[i := f b]> (loadAll otherParse file))).
  { apply list_eq. intros j.
    destruct (decide (j = i)) as [->|Hji].
    - rewrite list_lookup_insert_eq by now rewrite length_alter.
      rewrite list_lookup_alter. case_decide; subst.
      + rewrite list_lookup_insert_eq by done. cbn. now rewrite Hcomm.
      + now rewrite list_lookup_insert_eq.
    - rewrite list_lookup_insert_ne by done.
      rewrite !list_lookup_alter. case_decide; subst.
      + now rewrite list_lookup_insert_ne.
      + now rewrite list_lookup_insert_ne. }
  rewrite Hl. unfold writeBooksToFile. rewrite booksToSave_alter.
  destruct (booksToSave _); cbn; [|done]. now destruct (writeOk env).
Qed.

(** *** Checking out and in *)

Lemma asSaved_toggled (b : Book) t :
  asSaved b = b ->
  asSaved (toggled b (TimeValue t)) = toggled b (startOfDay (TimeValue t)).
Proof.
  intros Hb. unfold asSaved, toggled. cbn.
  apply (f_equal addedDate) in Hb. cbn in Hb. rewrite Hb.
  now destruct (isCheckedOut b).
Qed.

(** One call that can complete, on a store in the format. *)
Lemma toggleCheckoutStatus_step bookId env file i book :
  inStoreFormat file = true -> canComplete env ->
  findById bookId (loadAll otherParse file) = Some (i, book) ->
  exists file',
    toggleCheckoutStatus otherParse bookId env file = (Ok tt, file')
    /\ inStoreFormat file' = true
    /\ findById bookId (loadAll otherParse file')
       = Some (i, toggled book (startOfDay (TimeValue (now env)))).
Proof.
  intros Hf [Hw Hv] Hfind.
  destruct (found_in_format _ _ _ _ Hf Hfind) as [Hsaved Hsome].
  destruct (replaceFirst_succeeds bookId (fun b => toggled b (TimeValue (now env)))
              env file i book) as (file' & Hr & Hf' & Hl); [done..| |].
  { now apply bookToSave_toggled. }
  exists file'. rewrite toggleCheckoutStatus_replaceFirst.
  split_and!; [done..|].
  rewrite Hl, asSaved_toggled by done.
  now apply findById_insert with (book := book).
Qed.

Lemma toggles_state bookId envs : forall file i book,
  inStoreFormat file = true ->
  findById bookId (loadAll otherParse file) = Some (i, book) ->
  Forall canComplete envs ->
  exists book',
    findById bookId (loadAll otherParse (performAll otherParse (toggles bookId envs) file))
    = Some (i, book')
    /\ sameExceptCheckout book book'
    /\ isCheckedOut book' = xorb (isCheckedOut book) (Nat.odd (length envs))
    /\ (envs <> [] -> (is_Some (lastCheckedOutDate book') <-> isCheckedOut book' = true))
    /\ (envs = [] -> book' = book).
Proof.
  induction envs as [|env envs IH]; intros file i book Hf Hfind Hall.
  - exists book. cbn. rewrite xorb_false_r.
    unfold sameExceptCheckout. split_and!; done.
  - apply Forall_cons in Hall as [Henv Hall].
    destruct (toggleCheckoutStatus_step bookId env file i book Hf Henv Hfind)
      as (file1 & Hr & Hf1 & Hfind1).
    cbn [toggles List.map performAll perform]. rewrite Hr. cbn [snd].
    destruct (IH file1 i _ Hf1 Hfind1 Hall)
      as (book' & Hfind' & Hsame & Hout & Hdate & Hnil).
    exists book'. split_and!.
    + exact Hfind'.
    + unfold sameExceptCheckout in *. cbn in Hsame. exact Hsame.
    + rewrite Hout. cbn [isCheckedOut toggled length]. rewrite Nat.odd_succ.
      rewrite <- Nat.negb_odd. now destruct (isCheckedOut book), (Nat.odd (length envs)).
    + intros _. destruct envs as [|env2 envs].
      * rewrite (Hnil eq_refl). cbn.
        destruct (isCheckedOut book); cbn; split; intros H;
          first [done | now destruct H | eauto].
      * now apply Hdate.
    + discriminate.
Qed.

(** [C1], as amended. On a store in the format and with calls that
    can complete, [n] successive calls of [toggleCheckoutStatus] on the
    id of a book leave every field of the first book with that id as
    it was, except [isCheckedOut] and [lastCheckedOutDate]; they flip
    [isCheckedOut] when [n] is odd and restore it when [n] is even, two
    calls in particular; and after at least one call
    [lastCheckedOutDate] is there exactly when the book is then checked
    out. So for a book that was not checked out and had no such date it
    is there when [n] is odd and absent when [n] is even; for a book
    that was checked out it is the other way round. *)
Theorem toggleCheckoutStatus_repeated bookId file i book envs env' :
  inStoreFormat file = true ->
  findById bookId (loadAll otherParse file) = Some (i, book) ->
  Forall canComplete envs ->
  exists book',
    fst (getBook otherParse bookId env'
           (performAll otherParse (toggles bookId envs) file)) = Ok (Some book')
    /\ sameExceptCheckout book book'
    /\ isCheckedOut book' = xorb (isCheckedOut book) (Nat.odd (length envs))
    /\ (length envs = 2%nat -> isCheckedOut book' = isCheckedOut book)
    /\ (envs <> [] ->
        (is_Some (lastCheckedOutDate book') <-> isCheckedOut book' = true))
    /\ (isCheckedOut book = false -> lastCheckedOutDate book = None ->
        (is_Some (lastCheckedOutDate book') <-> Nat.odd (length envs) = true))
    /\ (isCheckedOut book = true -> envs <> [] ->
        (is_Some (lastCheckedOutDate book') <-> Nat.odd (length envs) = false)).
Proof.
  intros Hf Hfind Hall.
  destruct (toggles_state bookId envs file i book Hf Hfind Hall)
    as (book' & Hfind' & Hsame & Hout & Hdate & Hnil).
  exists book'. rewrite getBook_findById, Hfind'. split_and!; try done.
  - intros H2. rewrite Hout, H2. apply xorb_false_r.
  - intros Hin Hno. destruct envs as [|env envs].
    + rewrite (Hnil eq_refl), Hno. cbn. split; [intros []|]; done.
    + rewrite Hdate by done. rewrite Hout, Hin. now destruct (Nat.odd _).
  - intros Hin Hne. rewrite Hdate by done. rewrite Hout, Hin.
    now destruct (Nat.odd _).
Qed.

(** [C1] as it is stated fails for a book that is checked out: after
    one call, an odd number, its [lastCheckedOutDate] is gone. The file
    is the one that [addBook] and one [toggleCheckoutStatus] make of the
    empty store. *)
Lemma toggle_of_checked_out_book_clears_date :
  performAll noOtherParse [(someEnv, Add dune); (someEnv, ToggleCheckout "1")] emptyFile
  = duneOutFile
  /\ exists book book',
       fst (getBook noOtherParse "1" someEnv duneOutFile) = Ok (Some book)
       /\ fst (getBook noOtherParse "1" someEnv
                 (performAll noOtherParse (toggles "1" [someEnv]) duneOutFile))
          = Ok (Some book')
       /\ Nat.odd (length [someEnv]) = true
       /\ is_Some (lastCheckedOutDate book)
       /\ lastCheckedOutDate book' = None.
Proof.
  split; [vm_compute; reflexivity|].
  eexists _, _. split_and!; [vm_compute; reflexivity..| |].
  - cbn. eauto.
  - reflexivity.
Qed.

(** *** Adding a book *)

Lemma perform_inStoreFormat m env file :
  inStoreFormat file = true ->
  inStoreFormat (snd (perform otherParse m env file)) = true.
Proof.
  intros Hf. destruct (targetId m) as [bookId|] eqn:Ht.
  - rewrite (perform_replaceFirst _ _ _ _ _ Ht). unfold replaceFirst.
    destruct (findById _ _) as [[i book]|]; [|done].
    match goal with |- context [writeBooksToFile ?books env file] =>
      destruct (writeBooksToFile_effect books env file)
        as [(file' & -> & _ & _ & Hf' & _) | (_ & ->)]
    end; done.
  - destruct m; try discriminate. cbn [perform]. rewrite addBook_write.
    match goal with |- context [writeBooksToFile ?books env file] =>
      destruct (writeBooksToFile_effect books env file)
        as [(file' & -> & _ & _ & Hf' & _) | (_ & ->)]
    end; done.
Qed.

Lemma performAll_inStoreFormat calls file :
  inStoreFormat file = true ->
  inStoreFormat (performAll otherParse calls file) = true.
Proof.
  revert file. induction calls as [|[env m] calls IH]; intros file Hf; [done|].
  cbn. now apply IH, perform_inStoreFormat.
Qed.

Lemma empty_inStoreFormat file :
  loadAll otherParse file = [] -> inStoreFormat file = true.
Proof.
  destruct file as [|books]; [done|]. cbn.
  now intros ->%fmap_nil_inv.
Qed.

(** In a collection with the ids ["1"] to ["n"], the first book with
    the id ["n+1"] is the one put behind the others. *)
Lemma findById_new (books : list Book) n (book : Book) :
  id <$> books = pretty <$> seq 1 n ->
  id book = pretty (length books + 1)%nat ->
  findById (pretty (length books + 1)%nat) (books ++ [book])
  = Some (length books, book).
Proof.
  intros Hids Hid. apply list_find_Some. split_and!.
  - now rewrite lookup_app_r, Nat.sub_diag.
  - done.
  - intros j y Hj Hlt. rewrite lookup_app_l in Hj by done.
    assert (Hy : (id <$> books) !! j = Some (id y)) by now rewrite list_lookup_fmap, Hj.
    rewrite Hids, list_lookup_fmap in Hy.
    destruct (seq 1 n !! j) as [v|] eqn:Hv; [|done].
    apply lookup_seq in Hv as [-> _]. injection Hy as Hy.
    intros Heq. rewrite <- Hy in Heq. apply (inj pretty) in Heq. lia.
Qed.

(** [C2], as amended. An [addBook] that can complete, on any store
    in the format, puts exactly one new book behind the others: its id
    is the count of the books before plus one, as a string, it is not
    checked out, it is active, its [addedDate] is midnight (UTC) of the
    day of the call, it has no [lastCheckedOutDate], and its other
    fields are the input. After any sequence of calls on an empty
    store, [getBook] of the new id returns that book. *)
Theorem addBook_then_getBook data env env' :
  canComplete env ->
  (forall file,
     inStoreFormat file = true ->
     exists file' book,
       addBook otherParse data env file = (Ok tt, file')
       /\ loadAll otherParse file' = loadAll otherParse file ++ [book]
       /\ id book = pretty (length (loadAll otherParse file) + 1)%nat
       /\ isCheckedOut book = false
       /\ isActive book = true
       /\ addedDate book = startOfDay (TimeValue (now env))
       /\ lastCheckedOutDate book = None
       /\ title book = AddBookData.title data
       /\ author book = AddBookData.author data
       /\ isbn book = AddBookData.isbn data
       /\ publishedYear book = AddBookData.publishedYear data
       /\ genre book = AddBookData.genre data
       /\ description book = AddBookData.description data
       /\ condition book = AddBookData.condition data)
  /\ (forall file0 calls,
        loadAll otherParse file0 = [] ->
        let file := performAll otherParse calls file0 in
        fst (getBook otherParse (pretty (length (loadAll otherParse file) + 1)%nat) env'
               (snd (addBook otherParse data env file)))
        = Ok (Some (newBook (length (loadAll otherParse file)) data
                      (startOfDay (TimeValue (now env)))))).
Proof.
  intros [Hw Hv]. split.
  - intros file Hf.
    destruct (addBook_succeeds data env file Hf Hw Hv) as (file' & Hr & _ & Hl).
    exists file', (newBook (length (loadAll otherParse file)) data
                     (startOfDay (TimeValue (now env)))).
    split_and!; done.
  - intros file0 calls Hempty file.
    assert (Hf : inStoreFormat file = true)
      by now apply performAll_inStoreFormat, empty_inStoreFormat.
    destruct (performAll_ids calls file0 0%nat) as [n Hids]; [now rewrite Hempty|].
    fold file in Hids.
    destruct (addBook_succeeds data env file Hf Hw Hv) as (file' & -> & _ & Hl).
    cbn [snd]. rewrite getBook_findById, Hl. cbn [fst].
    now rewrite (findById_new _ n).
Qed.

(** [C2] as it is stated fails on the time of day: the book that
    [getBook] returns after [addBook] has the day of its creation as
    [addedDate], not the time. *)
Lemma added_date_is_cut_to_the_day :
  exists book,
    fst (getBook noOtherParse "1" someEnv
           (snd (addBook noOtherParse dune someEnv emptyFile))) = Ok (Some book)
    /\ now someEnv = 1700000000123
    /\ addedDate book = TimeValue 1699920000000
    /\ addedDate book <> TimeValue (now someEnv).
Proof.
  eexists. split_and!; [vm_compute; reflexivity|reflexivity|reflexivity|].
  cbn. discriminate.
Qed.

(** *** On any file *)

Lemma findById_asSaved bookId (books : list Book) :
  findById bookId (asSaved <$> books)
  = prod_map (fun i => i) asSaved <$> findById bookId books.
Proof.
  unfold findById. induction books as [|b books IH]; [done|].
  cbn. destruct (decide (id b = bookId)); [done|].
  rewrite IH. now destruct (list_find _ books) as [[i x]|].
Qed.

(** A mutation that found its book and fulfilled, on any file: every
    book is read back with its dates cut to the day, the found one
    changed. *)
Lemma replaceFirst_fulfilled bookId f env file file' i book :
  findById bookId (loadAll otherParse file) = Some (i, book) ->
  id (f book) = id book ->
  replaceFirst otherParse bookId f env file = (Ok tt, file') ->
  loadAll otherParse file' = asSaved <$> <[i := f book]> (loadAll otherParse file)
  /\ findById bookId (loadAll otherParse file') = Some (i, asSaved (f book)).
Proof.
  intros Hfind Hid. unfold replaceFirst. rewrite Hfind. intros Hr.
  destruct (writeBooksToFile_effect (<[i := f book]> (loadAll otherParse file)) env file)
    as [(file'' & Hr' & _ & _ & _ & Hl) | (_ & Hr')]; [|congruence].
  assert (file'' = file') as -> by congruence.
  split; [done|].
  rewrite Hl, findById_asSaved, (findById_insert _ _ _ _ (f book) Hfind Hid). done.
Qed.

(** The collection after a mutation keyed by an id, on any file. *)
Lemma replaceFirst_loadAll bookId f env file :
  (forall b, id (f b) = id b) ->
  loadAll otherParse (snd (replaceFirst otherParse bookId f env file))
  = loadAll otherParse file
  \/ exists i book,
       findById bookId (loadAll otherParse file) = Some (i, book)
       /\ fst (replaceFirst otherParse bookId f env file) = Ok tt
       /\ loadAll otherParse (snd (replaceFirst otherParse bookId f env file))
          = asSaved <$> <[i := f book]> (loadAll otherParse file).
Proof.
  intros Hid.
  destruct (findById bookId (loadAll otherParse file)) as [[i book]|] eqn:Hfind.
  - destruct (replaceFirst otherParse bookId f env file) as [[[]|e] file'] eqn:Hr.
    + right. exists i, book. split_and!; [done..|].
      now destruct (replaceFirst_fulfilled bookId f env file file' i book Hfind (Hid _) Hr).
    + left. revert Hr. unfold replaceFirst. rewrite Hfind. intros Hr.
      destruct (writeBooksToFile_effect (<[i := f book]> (loadAll otherParse file)) env file)
        as [(file'' & Hr' & _) | (_ & Hr')]; [congruence|].
      rewrite Hr' in Hr. now injection Hr as _ <-.
  - left. now rewrite replaceFirst_absent.
Qed.

(** [C3], as amended. [updateBook] on an id that no book of the
    collection has fulfils and leaves the file, hence what [loadAll]
    shows, as it was. When a book has the id and the call fulfils, on any
    file, the first book with that id has title, author, isbn,
    publishedYear, genre, description and condition from the input and
    its id, isCheckedOut and isActive as they were, and its addedDate and
    lastCheckedOutDate are read back as midnight (UTC) of the day they
    were on. On a store in the format the call fulfils whenever the write
    succeeds, and these two dates are as they were. *)
Theorem updateBook_replaces_mutable_fields bookId data env env' file :
  (Forall (fun b => id b <> bookId) (loadAll otherParse file) ->
     updateBook otherParse bookId data env file = (Ok tt, file)
     /\ loadAll otherParse (snd (updateBook otherParse bookId data env file))
        = loadAll otherParse file)
  /\ (forall i book file',
        findById bookId (loadAll otherParse file) = Some (i, book) ->
        updateBook otherParse bookId data env file = (Ok tt, file') ->
        exists book',
          fst (getBook otherParse bookId env' file') = Ok (Some book')
          /\ loadAll otherParse file' !! i = Some book'
          /\ title book' = AddBookData.title data
          /\ author book' = AddBookData.author data
          /\ isbn book' = AddBookData.isbn data
          /\ publishedYear book' = AddBookData.publishedYear data
          /\ genre book' = AddBookData.genre data
          /\ description book' = AddBookData.description data
          /\ condition book' = AddBookData.condition data
          /\ id book' = id book
          /\ isCheckedOut book' = isCheckedOut book
          /\ isActive book' = isActive book
          /\ addedDate book' = startOfDay (addedDate book)
          /\ lastCheckedOutDate book' = startOfDay <$> lastCheckedOutDate book)
  /\ (forall i book,
        inStoreFormat file = true -> writeOk env = true ->
        findById bookId (loadAll otherParse file) = Some (i, book) ->
        exists file' book',
          updateBook otherParse bookId data env file = (Ok tt, file')
          /\ loadAll otherParse file' = <[i := book']> (loadAll otherParse file)
          /\ fst (getBook otherParse bookId env' file') = Ok (Some book')
          /\ title book' = AddBookData.title data
          /\ author book' = AddBookData.author data
          /\ isbn book' = AddBookData.isbn data
          /\ publishedYear book' = AddBookData.publishedYear data
          /\ genre book' = AddBookData.genre data
          /\ description book' = AddBookData.description data
          /\ condition book' = AddBookData.condition data
          /\ id book' = id book
          /\ isCheckedOut book' = isCheckedOut book
          /\ isActive book' = isActive book
          /\ addedDate book' = addedDate book
          /\ lastCheckedOutDate book' = lastCheckedOutDate book).
Proof.
  split_and!.
  - intros Hnone%findById_None.
    rewrite updateBook_replaceFirst.
    now rewrite replaceFirst_absent.
  - intros i book file' Hfind Hr. rewrite updateBook_replaceFirst in Hr.
    destruct (replaceFirst_fulfilled bookId (fun b => withData b data) env file file' i book Hfind eq_refl Hr)
      as [Hl Hfind'].
    exists (asSaved (withData book data)).
    rewrite getBook_findById, Hfind'. split_and!; try done.
    apply findById_Some in Hfind' as (? & _). done.
  - intros i book Hf Hw Hfind.
    destruct (found_in_format _ _ _ _ Hf Hfind) as [Hsaved Hsome].
    destruct (replaceFirst_succeeds bookId (fun b => withData b data) env file i book)
      as (file' & Hr & _ & Hl); [done..| |].
    { revert Hsome. now apply bookToSave_same_dates. }
    change (asSaved (withData book data)) with (withData (asSaved book) data) in Hl.
    rewrite Hsaved in Hl.
    exists file', (withData book data).
    rewrite updateBook_replaceFirst.
    split_and!; try done.
    rewrite getBook_findById, Hl. cbn.
    now rewrite (findById_insert _ _ _ _ (withData book data) Hfind eq_refl).
Qed.

(** [C3] as it is stated fails on a store whose book carries a time of
    day: the call fulfils and the [addedDate] that is read back is
    another one. And it fails when another book of the store has a date
    that is no date: the book with the id is there, the write would
    succeed, and the call is rejected. *)
Lemma updateBook_cuts_a_stored_time :
  (fst (getBook parseUtcDateTime "1" someEnv stampedFile) = Ok (Some stampedBook)
   /\ addedDate stampedBook = TimeValue 1700000000123
   /\ fst (updateBook parseUtcDateTime "1" emma someEnv stampedFile) = Ok tt
   /\ fst (getBook parseUtcDateTime "1" someEnv
             (snd (updateBook parseUtcDateTime "1" emma someEnv stampedFile)))
      = Ok (Some (mkBook "1" "Emma" "Austen" "978-1" 1815 "Novel" "A comedy" FAIR
                    false true None (TimeValue 1699920000000))))
  /\ (fst (getBook noOtherParse "1" someEnv halfBrokenFile) = Ok (Some duneBook)
      /\ writeOk someEnv = true
      /\ updateBook noOtherParse "1" emma someEnv halfBrokenFile
         = (Err "Failed to save books", halfBrokenFile)).
Proof. split; split_and!; (vm_compute; reflexivity). Qed.

(** [C4], as amended. After a [markBookInactive] that fulfils on the
    id of a book, on any file, the first book with that id has
    [isActive = false] and every other field as before ([isCheckedOut]
    included), except that its addedDate and lastCheckedOutDate are read
    back as midnight (UTC) of the day they were on; [getActiveBooks] does
    not list it and [getBook] still returns it. On a store in the format
    the call fulfils whenever the write succeeds, and these two dates are
    as they were. *)
Theorem markBookInactive_soft_deletes bookId env env' file i book :
  findById bookId (loadAll otherParse file) = Some (i, book) ->
  (forall file',
     markBookInactive otherParse bookId env file = (Ok tt, file') ->
     exists book',
       fst (getBook otherParse bookId env' file') = Ok (Some book')
       /\ loadAll otherParse file' !! i = Some book'
       /\ (forall books, fst (getActiveBooks otherParse env' file') = Ok books ->
             book' ∉ books)
       /\ isActive book' = false
       /\ isCheckedOut book' = isCheckedOut book
       /\ id book' = id book
       /\ title book' = title book
       /\ author book' = author book
       /\ isbn book' = isbn book
       /\ publishedYear book' = publishedYear book
       /\ genre book' = genre book
       /\ description book' = description book
       /\ condition book' = condition book
       /\ addedDate book' = startOfDay (addedDate book)
       /\ lastCheckedOutDate book' = startOfDay <$> lastCheckedOutDate book)
  /\ (inStoreFormat file = true -> writeOk env = true ->
      exists file' book',
        markBookInactive otherParse bookId env file = (Ok tt, file')
        /\ loadAll otherParse file' = <[i := book']> (loadAll otherParse file)
        /\ fst (getBook otherParse bookId env' file') = Ok (Some book')
        /\ (forall books, fst (getActiveBooks otherParse env' file') = Ok books ->
              book' ∉ books)
        /\ isActive book' = false
        /\ isCheckedOut book' = isCheckedOut book
        /\ id book' = id book
        /\ title book' = title book
        /\ author book' = author book
        /\ isbn book' = isbn book
        /\ publishedYear book' = publishedYear book
        /\ genre book' = genre book
        /\ description book' = description book
        /\ condition book' = condition book
        /\ addedDate book' = addedDate book
        /\ lastCheckedOutDate book' = lastCheckedOutDate book).
Proof.
  intros Hfind. split.
  - intros file' Hr. rewrite markBookInactive_replaceFirst in Hr.
    destruct (replaceFirst_fulfilled bookId (inactive) env file file' i book Hfind eq_refl Hr)
      as [Hl Hfind'].
    exists (asSaved (inactive book)).
    rewrite getBook_findById, Hfind'. split_and!; try done.
    + apply findById_Some in Hfind' as (? & _). done.
    + rewrite getActiveBooks_filter. cbn. intros books [= <-].
      rewrite list_elem_of_In, filter_In. cbn. intros [_ ?]. discriminate.
  - intros Hf Hw.
    destruct (found_in_format _ _ _ _ Hf Hfind) as [Hsaved Hsome].
    destruct (replaceFirst_succeeds bookId inactive env file i book)
      as (file' & Hr & _ & Hl); [done..| |].
    { revert Hsome. now apply bookToSave_same_dates. }
    change (asSaved (inactive book)) with (inactive (asSaved book)) in Hl.
    rewrite Hsaved in Hl.
    exists file', (inactive book).
    rewrite markBookInactive_replaceFirst.
    split_and!; try done.
    + rewrite getBook_findById, Hl. cbn.
      now rewrite (findById_insert _ _ _ _ (inactive book) Hfind eq_refl).
    + rewrite getActiveBooks_filter. cbn. intros books [= <-].
      rewrite list_elem_of_In, filter_In. cbn. intros [_ ?]. discriminate.
Qed.

(** [C4] as it is stated fails on a store whose book carries a time of
    day: [markBookInactive] fulfils and, besides [isActive], the
    [addedDate] that is read back has changed. *)
Lemma markBookInactive_cuts_a_stored_time :
  fst (getBook parseUtcDateTime "1" someEnv stampedFile) = Ok (Some stampedBook)
  /\ addedDate stampedBook = TimeValue 1700000000123
  /\ fst (markBookInactive parseUtcDateTime "1" someEnv stampedFile) = Ok tt
  /\ fst (getBook parseUtcDateTime "1" someEnv
            (snd (markBookInactive parseUtcDateTime "1" someEnv stampedFile)))
     = Ok (Some removedBook)
  /\ addedDate removedBook = TimeValue 1699920000000.
Proof. split_and!; (vm_compute; reflexivity). Qed.

(** [C10], as amended. A mutation keyed by an id keeps, on any file
    and whatever its outcome, the number of books and their order (the
    ids stay in place), and every book with another id is afterwards as
    it was or as it was with its two dates at midnight (UTC) of their
    day; on a store in the format it is as it was. An [addBook] that
    fulfils keeps all books in order, each as it was up to the same cut of
    its dates, and puts the new one behind them; a rejected one leaves the
    file; on a store in the format an [addBook] that can write keeps all
    books as they were. *)
Theorem mutations_keep_the_other_books :
  (forall m bookId env file,
     targetId m = Some bookId ->
     let after := loadAll otherParse (snd (perform otherParse m env file)) in
     length after = length (loadAll otherParse file)
     /\ id <$> after = id <$> loadAll otherParse file
     /\ forall k b, loadAll otherParse file !! k = Some b -> id b <> bookId ->
          (after !! k = Some b \/ after !! k = Some (asSaved b))
          /\ (inStoreFormat file = true -> after !! k = Some b))
  /\ (forall data env file file',
        addBook otherParse data env file = (Ok tt, file') ->
        exists book',
          loadAll otherParse file' = (asSaved <$> loadAll otherParse file) ++ [book'])
  /\ (forall data env file e file',
        addBook otherParse data env file = (Err e, file') -> file' = file)
  /\ (forall data env file,
        inStoreFormat file = true -> writeOk env = true ->
        validTime (now env) = true ->
        exists file' book',
          addBook otherParse data env file = (Ok tt, file')
          /\ loadAll otherParse file' = loadAll otherParse file ++ [book']).
Proof.
  split_and!.
  - intros m bookId env file Ht after. subst after.
    rewrite (perform_replaceFirst _ _ _ _ _ Ht).
    destruct (replaceFirst_loadAll bookId (effect m env) env file (id_effect m env))
      as [-> | (i & book & Hfind & _ & ->)].
    + split_and!; [done..|]. intros k b Hk _. split; [now left|done].
    + apply findById_Some in Hfind as (Hi & Hid & _). split_and!.
      * now rewrite length_fmap, length_insert.
      * rewrite <- list_fmap_compose, list_fmap_insert. apply list_insert_id.
        rewrite list_lookup_fmap, Hi. cbn. now rewrite id_effect.
      * intros k b Hk Hne.
        assert (Hki : i <> k) by (intros <-; congruence).
        rewrite list_lookup_fmap, list_lookup_insert_ne, Hk by done. cbn.
        split; [now right|]. intros Hf. f_equal. eapply asSaved_lookup; eauto.
  - intros data env file file' Hr. rewrite addBook_write in Hr.
    match type of Hr with writeBooksToFile ?books env file = _ =>
      destruct (writeBooksToFile_effect books env file)
        as [(file'' & Hr' & _ & _ & _ & Hl) | (_ & Hr')]
    end; [|congruence].
    assert (file'' = file') as -> by congruence.
    rewrite Hl, fmap_app. cbn. eauto.
  - intros data env file e file' Hr. rewrite addBook_write in Hr.
    match type of Hr with writeBooksToFile ?books env file = _ =>
      destruct (writeBooksToFile_effect books env file)
        as [(file'' & Hr' & _) | (_ & Hr')]
    end; congruence.
  - intros data env file Hf Hw Hv.
    destruct (addBook_succeeds data env file Hf Hw Hv) as (file' & Hr & _ & Hl).
    eauto.
Qed.

(** [C10] as it is stated fails on a store in which another book
    carries a time of day: a [toggleCheckoutStatus] of the book with the
    id "1" fulfils and the book with the id "2" is read back with another
    [addedDate]. *)
Lemma toggle_cuts_the_dates_of_other_books :
  loadAll parseUtcDateTime mixedFile !! 1%nat = Some stampedEmma
  /\ id stampedEmma <> "1"
  /\ fst (perform parseUtcDateTime (ToggleCheckout "1") someEnv mixedFile) = Ok tt
  /\ loadAll parseUtcDateTime
       (snd (perform parseUtcDateTime (ToggleCheckout "1") someEnv mixedFile)) !! 1%nat
     = Some emmaBook
  /\ addedDate stampedEmma = TimeValue 1700000000123
  /\ addedDate emmaBook = TimeValue 1699920000000
  /\ emmaBook <> stampedEmma.
Proof.
  split_and!; [vm_compute; reflexivity | discriminate | vm_compute; reflexivity ..
              | discriminate].
Qed.

(** [C9] [updateBook], [toggleCheckoutStatus] and
    [updateBookCondition] never look at [isActive]. With the flag of any
    book of the file set to any value beforehand, each of them has the
    same outcome and leaves the same file, up to that flag. And a book
    that is not active is edited, checked out or in and given a condition
    as an active one: when the call on its id fulfils, on any file, the
    book read back has the fields of the input, the flipped
    [isCheckedOut], or the new condition, and is still not active; and on
    a store in the format the call does fulfil when it can complete. *)
Theorem mutations_ignore_isActive :
  ((forall bookId data env file k a,
      updateBook otherParse bookId data env (setActiveAt k a file)
      = (fst (updateBook otherParse bookId data env file),
         setActiveAt k a (snd (updateBook otherParse bookId data env file))))
   /\ (forall bookId env file k a,
         toggleCheckoutStatus otherParse bookId env (setActiveAt k a file)
         = (fst (toggleCheckoutStatus otherParse bookId env file),
            setActiveAt k a (snd (toggleCheckoutStatus otherParse bookId env file))))
   /\ (forall bookId c env file k a,
         updateBookCondition otherParse bookId c env (setActiveAt k a file)
         = (fst (updateBookCondition otherParse bookId c env file),
            setActiveAt k a (snd (updateBookCondition otherParse bookId c env file)))))
  /\ (forall bookId env env' file i book,
        findById bookId (loadAll otherParse file) = Some (i, book) ->
        isActive book = false ->
        (forall data file',
           updateBook otherParse bookId data env file = (Ok tt, file') ->
           exists book',
             fst (getBook otherParse bookId env' file') = Ok (Some book')
             /\ isActive book' = false
             /\ title book' = AddBookData.title data
             /\ author book' = AddBookData.author data
             /\ isbn book' = AddBookData.isbn data
             /\ publishedYear book' = AddBookData.publishedYear data
             /\ genre book' = AddBookData.genre data
             /\ description book' = AddBookData.description data
             /\ condition book' = AddBookData.condition data)
        /\ (forall file',
              toggleCheckoutStatus otherParse bookId env file = (Ok tt, file') ->
              exists book',
                fst (getBook otherParse bookId env' file') = Ok (Some book')
                /\ isActive book' = false
                /\ isCheckedOut book' = negb (isCheckedOut book)
                /\ (is_Some (lastCheckedOutDate book') <-> isCheckedOut book = false))
        /\ (forall c file',
              updateBookCondition otherParse bookId c env file = (Ok tt, file') ->
              exists book',
                fst (getBook otherParse bookId env' file') = Ok (Some book')
                /\ isActive book' = false
                /\ condition book' = c)
        /\ (inStoreFormat file = true -> canComplete env ->
            (forall data, fst (updateBook otherParse bookId data env file) = Ok tt)
            /\ fst (toggleCheckoutStatus otherParse bookId env file) = Ok tt
            /\ (forall c, fst (updateBookCondition otherParse bookId c env file) = Ok tt))).
Proof.
  split.
  - split_and!; intros.
    + rewrite !updateBook_replaceFirst. now apply replaceFirst_setActiveAt.
    + rewrite !toggleCheckoutStatus_replaceFirst. now apply replaceFirst_setActiveAt.
    + rewrite !updateBookCondition_replaceFirst. now apply replaceFirst_setActiveAt.
  - intros bookId env env' file i book Hfind Hoff. split_and!.
    + intros data file' Hr. rewrite updateBook_replaceFirst in Hr.
      destruct (replaceFirst_fulfilled bookId (fun b => withData b data) env file file' i book Hfind eq_refl Hr)
        as [_ Hfind'].
      exists (asSaved (withData book data)).
      rewrite getBook_findById, Hfind'. split_and!; done.
    + intros file' Hr. rewrite toggleCheckoutStatus_replaceFirst in Hr.
      destruct (replaceFirst_fulfilled bookId (fun b => toggled b (TimeValue (now env))) env file file' i book Hfind eq_refl Hr)
        as [_ Hfind'].
      exists (asSaved (toggled book (TimeValue (now env)))).
      rewrite getBook_findById, Hfind'. split_and!; try done.
      cbn. destruct (isCheckedOut book); cbn; split; intros H;
        first [done | now destruct H | eauto].
    + intros c file' Hr. rewrite updateBookCondition_replaceFirst in Hr.
      destruct (replaceFirst_fulfilled bookId (fun b => withCondition b c) env file file' i book Hfind eq_refl Hr)
        as [_ Hfind'].
      exists (asSaved (withCondition book c)).
      rewrite getBook_findById, Hfind'. split_and!; done.
    + intros Hf [Hw Hv].
      destruct (found_in_format _ _ _ _ Hf Hfind) as [_ Hsome].
      split_and!.
      * intros data. rewrite updateBook_replaceFirst.
        destruct (replaceFirst_succeeds bookId (fun b => withData b data) env file i book)
          as (file' & -> & _); [done..| |done].
        revert Hsome. now apply bookToSave_same_dates.
      * rewrite toggleCheckoutStatus_replaceFirst.
        destruct (replaceFirst_succeeds bookId
                    (fun b => toggled b (TimeValue (now env))) env file i book)
          as (file' & -> & _); [done..| |done].
        now apply bookToSave_toggled.
      * intros c. rewrite updateBookCondition_replaceFirst.
        destruct (replaceFirst_succeeds bookId (fun b => withCondition b c) env file i book)
          as (file' & -> & _); [done..| |done].
        revert Hsome. now apply bookToSave_same_dates.
Qed.

End Mutations.

(* ===================================================================== *)
(** ** The file format                                                    *)
(* ===================================================================== *)

Section Format.
Variable otherParse : string -> option Z.

Lemma sameDay_startOfDay d : sameDay (startOfDay d) d = true.
Proof. destruct d as [|t]; [done|]. cbn. rewrite Day_startOfDay. apply Z.eqb_refl. Qed.

Lemma sameBookByDay_asSaved b : sameBookByDay (asSaved b) b.
Proof.
  unfold sameBookByDay. split_and!; try done; cbn.
  - destruct (lastCheckedOutDate b); [apply sameDay_startOfDay|done].
  - apply sameDay_startOfDay.
Qed.

Lemma sameDay_refl d : sameDay d d = true.
Proof. destruct d; [done|]. apply Z.eqb_refl. Qed.

Lemma sameBookByDay_refl b : sameBookByDay b b.
Proof.
  unfold sameBookByDay. split_and!; try done.
  - destruct (lastCheckedOutDate b); [apply sameDay_refl|done].
  - apply sameDay_refl.
Qed.

Lemma resave_write env file :
  resave otherParse env file
  = writeBooksToFile (loadAll otherParse file) env file.
Proof. unfold resave. now rewrite bind_read. Qed.

(** [C6] [saveAll(loadAll())] is idempotent: the collection loaded
    after it equals the one loaded before it, book by book, with the
    dates compared by their day; and doing it once more has the same
    outcome and leaves the file that the first time left. *)
Theorem resave_round_trip env file :
  Forall2 sameBookByDay
    (loadAll otherParse (snd (resave otherParse env file)))
    (loadAll otherParse file)
  /\ resave otherParse env (snd (resave otherParse env file))
     = resave otherParse env file.
Proof.
  rewrite !resave_write.
  destruct (writeBooksToFile_cases (loadAll otherParse file) env file)
    as [(saved & Hs & Hw & Hr) | (_ & Hr)]; rewrite Hr; cbn [snd].
  - split.
    + rewrite (loadAll_saved otherParse _ _ Hs).
      apply Forall2_fmap_l, Forall_Forall2_diag, Forall_true.
      apply sameBookByDay_asSaved.
    + unfold writeBooksToFile.
      rewrite (booksToSave_loadAll otherParse (BooksJson saved)), Hw; [done|].
      eapply inStoreFormat_saved; eauto.
  - split.
    + apply Forall_Forall2_diag, Forall_true, sameBookByDay_refl.
    + exact Hr.
Qed.

Lemma dateOnlyShape_dateString t : dateOnlyShape t (dateString t).
Proof. split; [apply dateString_YYYYMMDD | apply dateString_expanded]. Qed.

Lemma dateOnly_writtenAs d s : dateOnly d = Some s -> writtenAs d s.
Proof.
  intros (t & -> & Hv & ->)%dateOnly_Some. exists t.
  split_and!; try done. apply dateOnlyShape_dateString.
Qed.

Lemma member_lastCheckedOutDate s :
  member "lastCheckedOutDate" (jsonMembers s)
  = JsString <$> Stored.lastCheckedOutDate s.
Proof. unfold jsonMembers, properties. now destruct (Stored.lastCheckedOutDate s). Qed.

Lemma member_addedDate s :
  member "addedDate" (jsonMembers s) = Some (JsString (Stored.addedDate s)).
Proof. unfold jsonMembers, properties. now destruct (Stored.lastCheckedOutDate s). Qed.

(** [C7], as amended. Of every book that [writeBooksToFile] writes,
    the [addedDate] member, and the [lastCheckedOutDate] member when the
    book has that date, is the date part of [toISOString] alone, without
    a time: of the shape [YYYY-MM-DD] when the year of the date is within
    0..9999 and with a sign and six digits of year otherwise. When the
    book has no [lastCheckedOutDate], the object written has no such
    member at all. *)
Theorem written_dates_are_date_only books env file file' :
  writeBooksToFile books env file = (Ok tt, file') ->
  exists saved,
    file' = BooksJson saved
    /\ Forall2
         (fun book s =>
            (exists added,
               member "addedDate" (jsonMembers s) = Some (JsString added)
               /\ writtenAs (addedDate book) added)
            /\ (forall d, lastCheckedOutDate book = Some d ->
                  exists last,
                    member "lastCheckedOutDate" (jsonMembers s) = Some (JsString last)
                    /\ writtenAs d last)
            /\ (lastCheckedOutDate book = None ->
                  member "lastCheckedOutDate" (jsonMembers s) = None))
         books saved.
Proof.
  intros Hr.
  destruct (writeBooksToFile_cases books env file)
    as [(saved & Hs & _ & Hr') | (_ & Hr')]; [|congruence].
  exists saved. split; [congruence|].
  apply booksToSave_Forall2 in Hs.
  eapply Forall2_impl; [exact Hs|]. clear. intros book s.
  unfold bookToSave.
  destruct (dateOnly (addedDate book)) as [added|] eqn:Ha; [|discriminate].
  destruct (lastCheckedOutDate book) as [d|].
  - destruct (dateOnly d) as [last|] eqn:Hl; [|discriminate].
    intros [= <-]. rewrite member_lastCheckedOutDate, member_addedDate. cbn.
    split_and!; [|intros ? [= <-]|discriminate]; eauto using dateOnly_writtenAs.
  - intros [= <-]. rewrite member_lastCheckedOutDate, member_addedDate. cbn.
    split_and!; [|discriminate|done]; eauto using dateOnly_writtenAs.
Qed.

(** [C7] as it is stated fails for a date of the year 10000, be it read
    from a file or taken from the clock by [addBook]: the string written
    is not of the shape [YYYY-MM-DD]. *)
Lemma year_10000_is_not_YYYYMMDD :
  loadAll noOtherParse lateFile = [lateBook]
  /\ (exists s,
        writeBooksToFile [lateBook] someEnv lateFile = (Ok tt, BooksJson [s])
        /\ member "addedDate" (jsonMembers s) = Some (JsString "+010000-01-01"))
  /\ (exists s,
        addBook noOtherParse dune (mkEnv 253402300800000 true) emptyFile
        = (Ok tt, BooksJson [s])
        /\ member "addedDate" (jsonMembers s) = Some (JsString "+010000-01-01"))
  /\ isYYYYMMDD "+010000-01-01" = false.
Proof.
  split_and!; [reflexivity| | |reflexivity];
    (eexists; vm_compute; split; reflexivity).
Qed.

End Format.

(* ===================================================================== *)
(** ** The theorems at work on sample data                                *)
(* ===================================================================== *)

(** The scenario of the specification: [addBook] on the empty store gives
    the id ["1"]; [toggleCheckoutStatus] checks the book out and dates it
    today; after [markBookInactive] it is no longer among the active books
    and [getBook] still returns it, not active and still checked out. *)
Example dune_scenario :
  let file1 := snd (addBook noOtherParse dune someEnv emptyFile) in
  let file2 := snd (toggleCheckoutStatus noOtherParse "1" someEnv file1) in
  let file3 := snd (markBookInactive noOtherParse "1" someEnv file2) in
  file1 = duneFile
  /\ file2 = duneOutFile
  /\ fst (getActiveBooks noOtherParse someEnv file3) = Ok []
  /\ fst (getBook noOtherParse "1" someEnv file3)
     = Ok (Some (mkBook "1" "Dune" "Herbert" "978-0" 1965 "SciFi" "..." GOOD
                   true false (Some (TimeValue 1699920000000))
                   (TimeValue 1699920000000))).
Proof. vm_compute. split_and!; reflexivity. Qed.

Lemma duneFile_found :
  findById "1" (loadAll noOtherParse duneFile) = Some (0%nat, duneBook).
Proof. vm_compute. reflexivity. Defined.

Lemma someEnv_canComplete : canComplete someEnv.
Proof. split; reflexivity. Defined.

Lemma toggleCheckoutStatus_repeated_witness :
  inStoreFormat duneFile = true
  /\ Forall canComplete [someEnv; someEnv; someEnv]
  /\ exists book',
       fst (getBook noOtherParse "1" someEnv
              (performAll noOtherParse (toggles "1" [someEnv; someEnv; someEnv]) duneFile))
       = Ok (Some book')
       /\ sameExceptCheckout duneBook book'
       /\ isCheckedOut book' = true
       /\ is_Some (lastCheckedOutDate book').
Proof.
  assert (Hall : Forall canComplete [someEnv; someEnv; someEnv])
    by (repeat (constructor; [exact someEnv_canComplete|]); constructor).
  split; [reflexivity|]. split; [exact Hall|].
  destruct (toggleCheckoutStatus_repeated noOtherParse "1" duneFile 0%nat duneBook
              [someEnv; someEnv; someEnv] someEnv eq_refl duneFile_found Hall)
    as (book' & Hget & Hsame & Hout & _ & _ & Hodd & _).
  exists book'. split; [exact Hget|]. split; [exact Hsame|]. split; [exact Hout|].
  apply Hodd; reflexivity.
Defined.

Lemma addBook_then_getBook_witness :
  canComplete someEnv
  /\ inStoreFormat duneFile = true
  /\ loadAll noOtherParse emptyFile = []
  /\ (exists file' book,
        addBook noOtherParse emma someEnv duneFile = (Ok tt, file')
        /\ loadAll noOtherParse file' = loadAll noOtherParse duneFile ++ [book]
        /\ id book = "2"
        /\ addedDate book = TimeValue 1699920000000)
  /\ fst (getBook noOtherParse "2" someEnv
            (snd (addBook noOtherParse emma someEnv
                    (performAll noOtherParse [(someEnv, Add dune)] emptyFile))))
     = Ok (Some (newBook 1 emma (TimeValue 1699920000000))).
Proof.
  split; [exact someEnv_canComplete|]. split; [reflexivity|]. split; [reflexivity|].
  destruct (addBook_then_getBook noOtherParse emma someEnv someEnv someEnv_canComplete)
    as [Hadd Hget].
  split.
  - destruct (Hadd duneFile eq_refl) as (file' & book & Hr & Hl & Hid & _ & _ & Hd & _).
    exists file', book. split; [exact Hr|]. split; [exact Hl|]. split; [exact Hid|].
    exact Hd.
  - exact (Hget emptyFile [(someEnv, Add dune)] eq_refl).
Defined.

Lemma stampedFile_found :
  findById "1" (loadAll parseUtcDateTime stampedFile) = Some (0%nat, stampedBook).
Proof. vm_compute. reflexivity. Defined.

Lemma updateBook_replaces_mutable_fields_witness :
  Forall (fun b => id b <> "7") (loadAll noOtherParse duneFile)
  /\ updateBook noOtherParse "7" emma someEnv duneFile = (Ok tt, duneFile)
  /\ (exists book',
        fst (getBook parseUtcDateTime "1" someEnv
               (snd (updateBook parseUtcDateTime "1" emma someEnv stampedFile)))
        = Ok (Some book')
        /\ title book' = "Emma"
        /\ id book' = "1"
        /\ addedDate book' = startOfDay (addedDate stampedBook))
  /\ inStoreFormat duneFile = true
  /\ writeOk someEnv = true
  /\ exists file' book',
       updateBook noOtherParse "1" emma someEnv duneFile = (Ok tt, file')
       /\ fst (getBook noOtherParse "1" someEnv file') = Ok (Some book')
       /\ title book' = "Emma"
       /\ id book' = "1"
       /\ addedDate book' = addedDate duneBook.
Proof.
  assert (Hnone : Forall (fun b => id b <> "7") (loadAll noOtherParse duneFile))
    by (repeat constructor; discriminate).
  assert (Hr : updateBook parseUtcDateTime "1" emma someEnv stampedFile
               = (Ok tt, snd (updateBook parseUtcDateTime "1" emma someEnv stampedFile)))
    by (vm_compute; reflexivity).
  split; [exact Hnone|].
  split.
  { exact (proj1 (proj1 (updateBook_replaces_mutable_fields noOtherParse "7" emma someEnv
                           someEnv duneFile) Hnone)). }
  split.
  { destruct (proj1 (proj2 (updateBook_replaces_mutable_fields parseUtcDateTime "1" emma
                              someEnv someEnv stampedFile))
                0%nat stampedBook _ stampedFile_found Hr)
      as (book' & Hget & _ & Ht & _ & _ & _ & _ & _ & _ & Hid & _ & _ & Hd & _).
    exists book'. repeat split; assumption. }
  split; [reflexivity|]. split; [reflexivity|].
  destruct (proj2 (proj2 (updateBook_replaces_mutable_fields noOtherParse "1" emma someEnv
                            someEnv duneFile)) 0%nat duneBook eq_refl eq_refl duneFile_found)
    as (file' & book' & Hr' & _ & Hget & Ht & _ & _ & _ & _ & _ & _ & Hid & _ & _ & Hd & _).
  exists file', book'. repeat split; assumption.
Defined.

Lemma markBookInactive_soft_deletes_witness :
  (exists book',
     fst (getBook parseUtcDateTime "1" someEnv
            (snd (markBookInactive parseUtcDateTime "1" someEnv stampedFile)))
     = Ok (Some book')
     /\ isActive book' = false
     /\ isCheckedOut book' = isCheckedOut stampedBook
     /\ addedDate book' = startOfDay (addedDate stampedBook))
  /\ inStoreFormat duneOutFile = true
  /\ writeOk someEnv = true
  /\ exists file' book',
       markBookInactive noOtherParse "1" someEnv duneOutFile = (Ok tt, file')
       /\ fst (getBook noOtherParse "1" someEnv file') = Ok (Some book')
       /\ isActive book' = false
       /\ isCheckedOut book' = true.
Proof.
  assert (Hr : markBookInactive parseUtcDateTime "1" someEnv stampedFile
               = (Ok tt, snd (markBookInactive parseUtcDateTime "1" someEnv stampedFile)))
    by (vm_compute; reflexivity).
  split.
  { destruct (proj1 (markBookInactive_soft_deletes parseUtcDateTime "1" someEnv someEnv
                       stampedFile 0%nat stampedBook stampedFile_found) _ Hr)
      as (book' & Hget & _ & _ & Ha & Hc & _ & _ & _ & _ & _ & _ & _ & _ & Hd & _).
    exists book'. repeat split; assumption. }
  split; [reflexivity|]. split; [reflexivity|].
  assert (Hfind : findById "1" (loadAll noOtherParse duneOutFile)
                  = Some (0%nat, toggled duneBook (TimeValue 1699920000000)))
    by (vm_compute; reflexivity).
  destruct (proj2 (markBookInactive_soft_deletes noOtherParse "1" someEnv someEnv
                     duneOutFile 0%nat _ Hfind) eq_refl eq_refl)
    as (file' & book' & Hr' & _ & Hget & _ & Ha & Hc & _).
  exists file', book'. repeat split; assumption.
Defined.

Lemma errors_read_absorbed_write_raised_witness :
  writeOk fullDisk = false
  /\ addBook noOtherParse dune fullDisk duneFile = (Err "Failed to save books", duneFile)
  /\ toggleCheckoutStatus noOtherParse "1" fullDisk duneFile
     = (Err "Failed to save books", duneFile)
  /\ Forall (fun b => id b <> "7") (loadAll noOtherParse duneFile)
  /\ markBookInactive noOtherParse "7" fullDisk duneFile = (Ok tt, duneFile).
Proof.
  destruct (errors_read_absorbed_write_raised noOtherParse)
    as (_ & _ & _ & Hadd & Hfound & Habsent).
  assert (Hnone : Forall (fun b => id b <> "7") (loadAll noOtherParse duneFile))
    by (repeat constructor; discriminate).
  split; [reflexivity|].
  split; [exact (Hadd dune fullDisk duneFile eq_refl)|].
  split; [exact (Hfound (ToggleCheckout "1") "1" fullDisk duneFile 0%nat duneBook
                   eq_refl eq_refl duneFile_found)|].
  split; [exact Hnone|].
  exact (Habsent (SetInactive "7") "7" fullDisk duneFile eq_refl Hnone).
Defined.

Lemma written_dates_are_date_only_witness :
  writeBooksToFile [duneBook] someEnv emptyFile = (Ok tt, duneFile)
  /\ exists saved,
       duneFile = BooksJson saved
       /\ Forall2
            (fun book s =>
               (exists added,
                  member "addedDate" (jsonMembers s) = Some (JsString added)
                  /\ writtenAs (addedDate book) added)
               /\ (forall d, lastCheckedOutDate book = Some d ->
                     exists last,
                       member "lastCheckedOutDate" (jsonMembers s) = Some (JsString last)
                       /\ writtenAs d last)
               /\ (lastCheckedOutDate book = None ->
                     member "lastCheckedOutDate" (jsonMembers s) = None))
            [duneBook] saved.
Proof.
  split; [vm_compute; reflexivity|].
  apply (written_dates_are_date_only [duneBook] someEnv emptyFile duneFile).
  vm_compute. reflexivity.
Defined.

Lemma ids_distinct_and_never_changed_witness :
  loadAll noOtherParse Unreadable = []
  /\ NoDup (id <$> loadAll noOtherParse
              (performAll noOtherParse
                 [(someEnv, Add dune); (fullDisk, Add emma); (someEnv, Add emma);
                  (someEnv, Update "2" dune)] Unreadable))
  /\ exists b',
       loadAll noOtherParse (snd (perform noOtherParse (Update "1" emma) someEnv duneFile))
         !! 0%nat = Some b'
       /\ id b' = id duneBook.
Proof.
  destruct (ids_distinct_and_never_changed noOtherParse) as [Hdistinct Hsame].
  split; [reflexivity|].
  split; [exact (Hdistinct Unreadable _ eq_refl)|].
  exact (Hsame (Update "1" emma) someEnv duneFile 0%nat duneBook eq_refl).
Defined.

Lemma mutations_keep_the_other_books_witness :
  inStoreFormat twoBooksFile = true
  /\ loadAll noOtherParse twoBooksFile !! 1%nat = Some emmaOutBook
  /\ id emmaOutBook <> "1"
  /\ length (loadAll noOtherParse
               (snd (perform noOtherParse (ToggleCheckout "1") someEnv twoBooksFile)))
     = length (loadAll noOtherParse twoBooksFile)
  /\ loadAll noOtherParse
       (snd (perform noOtherParse (ToggleCheckout "1") someEnv twoBooksFile)) !! 1%nat
     = Some emmaOutBook
  /\ (loadAll parseUtcDateTime
        (snd (perform parseUtcDateTime (ToggleCheckout "1") someEnv mixedFile)) !! 1%nat
      = Some stampedEmma
      \/ loadAll parseUtcDateTime
           (snd (perform parseUtcDateTime (ToggleCheckout "1") someEnv mixedFile)) !! 1%nat
         = Some (asSaved stampedEmma))
  /\ canComplete someEnv
  /\ exists file' book',
       addBook noOtherParse emma someEnv twoBooksFile = (Ok tt, file')
       /\ loadAll noOtherParse file' = loadAll noOtherParse twoBooksFile ++ [book'].
Proof.
  destruct (mutations_keep_the_other_books noOtherParse) as (Hkeep & _ & _ & Hadd).
  destruct (mutations_keep_the_other_books parseUtcDateTime) as (Hkeep' & _).
  assert (Hne : id emmaOutBook <> "1") by discriminate.
  assert (Hne' : id stampedEmma <> "1") by discriminate.
  destruct (Hkeep (ToggleCheckout "1") "1" someEnv twoBooksFile eq_refl)
    as (Hlen & _ & Hother).
  destruct (Hkeep' (ToggleCheckout "1") "1" someEnv mixedFile eq_refl)
    as (_ & _ & Hother').
  split; [reflexivity|]. split; [reflexivity|]. split; [exact Hne|].
  split; [exact Hlen|].
  split; [exact (proj2 (Hother 1%nat emmaOutBook eq_refl Hne) eq_refl)|].
  split.
  { apply (Hother' 1%nat stampedEmma); [vm_compute; reflexivity|exact Hne']. }
  split; [exact someEnv_canComplete|].
  exact (Hadd emma someEnv twoBooksFile eq_refl eq_refl eq_refl).
Defined.

Lemma removedFile_found :
  findById "1" (loadAll noOtherParse removedFile) = Some (0%nat, removedBook).
Proof. vm_compute. reflexivity. Defined.

Lemma mutations_ignore_isActive_witness :
  isActive removedBook = false
  /\ inStoreFormat removedFile = true
  /\ canComplete someEnv
  /\ (exists book',
        fst (getBook noOtherParse "1" someEnv
               (snd (updateBook noOtherParse "1" emma someEnv removedFile)))
        = Ok (Some book')
        /\ isActive book' = false
        /\ title book' = "Emma"
        /\ author book' = "Austen")
  /\ (exists book',
        fst (getBook noOtherParse "1" someEnv
               (snd (toggleCheckoutStatus noOtherParse "1" someEnv removedFile)))
        = Ok (Some book')
        /\ isActive book' = false
        /\ isCheckedOut book' = true
        /\ is_Some (lastCheckedOutDate book'))
  /\ (exists book',
        fst (getBook noOtherParse "1" someEnv
               (snd (updateBookCondition noOtherParse "1" POOR someEnv removedFile)))
        = Ok (Some book')
        /\ isActive book' = false
        /\ condition book' = POOR).
Proof.
  destruct (proj2 (mutations_ignore_isActive noOtherParse) "1" someEnv someEnv removedFile
              0%nat removedBook removedFile_found eq_refl)
    as (Hupdate & Htoggle & Hcondition & Hfulfils).
  destruct (Hfulfils eq_refl someEnv_canComplete) as (Hu & Ht & Hc).
  split; [reflexivity|]. split; [reflexivity|]. split; [exact someEnv_canComplete|].
  split.
  { destruct (Hupdate emma (snd (updateBook noOtherParse "1" emma someEnv removedFile)))
      as (book' & Hget & Hoff & Htitle & Hauthor & _).
    { rewrite <- (Hu emma). apply surjective_pairing. }
    exists book'. repeat split; assumption. }
  split.
  { destruct (Htoggle (snd (toggleCheckoutStatus noOtherParse "1" someEnv removedFile)))
      as (book' & Hget & Hoff & Hout & Hdate).
    { rewrite <- Ht. apply surjective_pairing. }
    exists book'. split; [exact Hget|]. split; [exact Hoff|]. split; [exact Hout|].
    apply Hdate. reflexivity. }
  destruct (Hcondition POOR
              (snd (updateBookCondition noOtherParse "1" POOR someEnv removedFile)))
    as (book' & Hget & Hoff & Hcond).
  { rewrite <- (Hc POOR). apply surjective_pairing. }
  exists book'. repeat split; assumption.
Defined.

(* ===================================================================== *)
(** ** More on the actions                                                *)
(* ===================================================================== *)

Section MoreOnActions.
Variable otherParse : string -> option Z.

(** What a mutation keyed by an id makes of the book it found can be
    saved when the book could, given a clock that shows a time value. *)
Lemma effect_savable m env (book : Book) :
  validTime (now env) = true -> is_Some (bookToSave book) ->
  is_Some (bookToSave (effect m env book)).
Proof.
  intros Hv Hs. destruct m; cbn [effect]; try done;
    try (revert Hs; now apply bookToSave_same_dates).
  now apply bookToSave_toggled.
Qed.

(** The outcome of a mutation that found its book, as a function of the
    book and the environment. *)
Lemma replaceFirst_result bookId f env file i book :
  inStoreFormat file = true ->
  findById bookId (loadAll otherParse file) = Some (i, book) ->
  replaceFirst otherParse bookId f env file
  = match bookToSave (f book) with
    | Some s' =>
        if writeOk env then (Ok tt, BooksJson (<[i := s']> (storedBooks file)))
        else (Err "Failed to save books", file)
    | None => (Err "Failed to save books", file)
    end.
Proof.
  intros Hf Hfind.
  destruct (replaceFirst_found otherParse bookId f env file i book Hf Hfind)
    as [(s' & -> & -> & ->) | ([Hn | Hn] & ->)]; [done|now rewrite Hn|].
  rewrite Hn. now destruct (bookToSave (f book)).
Qed.

(** [X1] [updateBookCondition] on an id that no book has fulfils and
    leaves the file as it is. On the id of a book of a store in the
    format, with a write that succeeds, it gives the first book with that
    id the new condition and leaves its eleven other fields as they
    were. *)
Theorem updateBookCondition_sets_condition bookId c env file :
  (Forall (fun b => id b <> bookId) (loadAll otherParse file) ->
     updateBookCondition otherParse bookId c env file = (Ok tt, file))
  /\ (forall i book,
        inStoreFormat file = true -> writeOk env = true ->
        findById bookId (loadAll otherParse file) = Some (i, book) ->
        exists file' book',
          updateBookCondition otherParse bookId c env file = (Ok tt, file')
          /\ loadAll otherParse file' = <[i := book']> (loadAll otherParse file)
          /\ fst (getBook otherParse bookId env file') = Ok (Some book')
          /\ condition book' = c
          /\ id book' = id book
          /\ title book' = title book
          /\ author book' = author book
          /\ isbn book' = isbn book
          /\ publishedYear book' = publishedYear book
          /\ genre book' = genre book
          /\ description book' = description book
          /\ isCheckedOut book' = isCheckedOut book
          /\ isActive book' = isActive book
          /\ addedDate book' = addedDate book
          /\ lastCheckedOutDate book' = lastCheckedOutDate book).
Proof.
  split.
  - intros Hnone%findById_None.
    rewrite updateBookCondition_replaceFirst. now apply replaceFirst_absent.
  - intros i book Hf Hw Hfind.
    destruct (found_in_format otherParse _ _ _ _ Hf Hfind) as [Hsaved Hsome].
    destruct (replaceFirst_succeeds otherParse bookId (fun b => withCondition b c)
                env file i book) as (file' & Hr & _ & Hl); [done..| |].
    { revert Hsome. now apply bookToSave_same_dates. }
    change (asSaved (withCondition book c)) with (withCondition (asSaved book) c) in Hl.
    rewrite Hsaved in Hl.
    exists file', (withCondition book c). rewrite updateBookCondition_replaceFirst.
    split_and!; try done.
    rewrite getBook_findById, Hl. cbn.
    now rewrite (findById_insert _ _ _ _ (withCondition book c) Hfind eq_refl).
Qed.

(** [X2] A mutation keyed by an id changes one position of the
    collection at most, the first whose book has the id. On any file and
    whatever the outcome, the collection keeps its length and every other
    position, later books with the same id included, holds afterwards the
    book it held or that book with its two dates at midnight (UTC) of
    their day; on a store in the format it holds the same book. *)
Theorem keyed_mutation_changes_first_match_only m bookId env file i book :
  targetId m = Some bookId ->
  findById bookId (loadAll otherParse file) = Some (i, book) ->
  let after := loadAll otherParse (snd (perform otherParse m env file)) in
  (forall j other, (j < i)%nat -> loadAll otherParse file !! j = Some other ->
                   id other <> bookId)
  /\ length after = length (loadAll otherParse file)
  /\ forall k b, k <> i -> loadAll otherParse file !! k = Some b ->
       (after !! k = Some b \/ after !! k = Some (asSaved b))
       /\ (inStoreFormat file = true -> after !! k = Some b).
Proof.
  intros Ht Hfind after. subst after. split_and!.
  - intros j other Hlt Hj. unfold findById in Hfind.
    apply list_find_Some in Hfind as (_ & _ & Hfirst). eauto.
  - rewrite (perform_replaceFirst otherParse _ _ _ _ Ht).
    destruct (replaceFirst_loadAll otherParse bookId (effect m env) env file
                (id_effect m env)) as [-> | (i' & book' & _ & _ & ->)]; [done|].
    now rewrite length_fmap, length_insert.
  - intros k b Hk Hb. rewrite (perform_replaceFirst otherParse _ _ _ _ Ht).
    destruct (replaceFirst_loadAll otherParse bookId (effect m env) env file
                (id_effect m env)) as [-> | (i' & book' & Hfind' & _ & ->)].
    + split; [now left|done].
    + assert (i' = i) as -> by congruence.
      rewrite list_lookup_fmap, list_lookup_insert_ne, Hb by done. cbn.
      split; [now right|]. intros Hf. f_equal. eapply asSaved_lookup; eauto.
Qed.

(** [X3] On a store in the format no call rejects as long as the write
    succeeds and the clock shows a time value, and the file it leaves is
    in the format again: so every call of a sequence of such calls
    fulfils. *)
Theorem calls_that_can_complete_fulfil file :
  inStoreFormat file = true ->
  (forall m env,
     canComplete env ->
     fst (perform otherParse m env file) = Ok tt
     /\ inStoreFormat (snd (perform otherParse m env file)) = true)
  /\ (forall before env m after,
        Forall (fun call => canComplete (fst call)) (before ++ (env, m) :: after) ->
        fst (perform otherParse m env (performAll otherParse before file)) = Ok tt).
Proof.
  intros Hf.
  assert (Hone : forall file m env, inStoreFormat file = true -> canComplete env ->
            fst (perform otherParse m env file) = Ok tt).
  { clear. intros file m env Hf [Hw Hv].
    destruct (targetId m) as [bookId|] eqn:Ht.
    - rewrite (perform_replaceFirst otherParse _ _ _ _ Ht).
      destruct (findById bookId (loadAll otherParse file)) as [[i book]|] eqn:Hfind.
      + destruct (found_in_format otherParse _ _ _ _ Hf Hfind) as [_ Hsome].
        destruct (replaceFirst_succeeds otherParse bookId (effect m env) env file i book)
          as (file' & -> & _); [done..| |done].
        now apply effect_savable.
      + now rewrite replaceFirst_absent.
    - destruct m; try discriminate. cbn [perform].
      now destruct (addBook_succeeds otherParse data env file Hf Hw Hv) as (file' & -> & _). }
  split.
  - intros m env Hc. split; [now apply Hone|now apply perform_inStoreFormat].
  - intros before env m after Hall. apply Forall_app in Hall as [_ Hall].
    apply Forall_cons in Hall as [Hc _].
    apply Hone; [now apply performAll_inStoreFormat|done].
Qed.

(** [X4] A [toggleCheckoutStatus] that can complete, on the id of a
    book of a store in the format: a book that was not checked out is then
    checked out and its [lastCheckedOutDate] is midnight (UTC) of the day
    of the call; a book that was checked out is then not checked out and
    has no [lastCheckedOutDate] any more. *)
Theorem toggleCheckoutStatus_dates_the_checkout bookId env env' file i book :
  inStoreFormat file = true -> canComplete env ->
  findById bookId (loadAll otherParse file) = Some (i, book) ->
  exists file' book',
    toggleCheckoutStatus otherParse bookId env file = (Ok tt, file')
    /\ fst (getBook otherParse bookId env' file') = Ok (Some book')
    /\ isCheckedOut book' = negb (isCheckedOut book)
    /\ (isCheckedOut book = false ->
        lastCheckedOutDate book' = Some (TimeValue (msPerDay * Day (now env))))
    /\ (isCheckedOut book = true -> lastCheckedOutDate book' = None).
Proof.
  intros Hf Hc Hfind.
  destruct (toggleCheckoutStatus_step otherParse bookId env file i book Hf Hc Hfind)
    as (file' & Hr & _ & Hfind').
  exists file', (toggled book (startOfDay (TimeValue (now env)))).
  rewrite getBook_findById, Hfind'. split_and!; try done.
  - intros Hout. cbn. now rewrite Hout.
  - intros Hout. cbn. now rewrite Hout.
Qed.

(** *** What no call does *)

(** The books that a call hands to [writeBooksToFile], when it changes
    the file at all. *)
Lemma perform_books m env file :
  snd (perform otherParse m env file) = file
  \/ exists books',
       loadAll otherParse (snd (perform otherParse m env file)) = asSaved <$> books'
       /\ ((exists data,
              m = Add data
              /\ books' = loadAll otherParse file
                            ++ [newBook (length (loadAll otherParse file)) data
                                  (TimeValue (now env))])
           \/ (exists bookId i book,
                 targetId m = Some bookId
                 /\ findById bookId (loadAll otherParse file) = Some (i, book)
                 /\ books' = <[i := effect m env book]> (loadAll otherParse file))).
Proof.
  destruct (targetId m) as [bookId|] eqn:Ht.
  - rewrite (perform_replaceFirst otherParse _ _ _ _ Ht). unfold replaceFirst.
    destruct (findById bookId (loadAll otherParse file)) as [[i book]|] eqn:Hfind;
      [|now left].
    destruct (writeBooksToFile_effect otherParse
                (<[i := effect m env book]> (loadAll otherParse file)) env file)
      as [(file' & -> & _ & _ & _ & Hl) | (_ & ->)]; [|now left].
    right. eexists. split; [exact Hl|]. right. exists bookId, i, book. done.
  - destruct m; try discriminate. cbn [perform]. rewrite addBook_write.
    match goal with |- context [writeBooksToFile ?books env file] =>
      destruct (writeBooksToFile_effect otherParse books env file)
        as [(file' & -> & _ & _ & _ & Hl) | (_ & ->)]
    end; [|now left].
    right. eexists. split; [exact Hl|]. left. exists data. done.
Qed.

Lemma isActive_effect m env (book : Book) :
  isActive book = false -> isActive (effect m env book) = false.
Proof. now destruct m. Qed.

Lemma addedDate_effect m env (book : Book) :
  addedDate (effect m env book) = addedDate book.
Proof. now destruct m. Qed.

(** [X5] No action brings a removed book back: a book that is not
    active keeps its place, its id and [isActive = false] through every
    sequence of calls, on any file and whatever their outcomes. *)
Theorem inactive_books_stay_inactive calls : forall file k book,
  loadAll otherParse file !! k = Some book -> isActive book = false ->
  exists book',
    loadAll otherParse (performAll otherParse calls file) !! k = Some book'
    /\ isActive book' = false /\ id book' = id book.
Proof.
  induction calls as [|[env m] calls IH]; intros file k book Hk Hoff; cbn.
  - eauto.
  - assert (Hstep : exists book1,
              loadAll otherParse (snd (perform otherParse m env file)) !! k = Some book1
              /\ isActive book1 = false /\ id book1 = id book).
    { destruct (perform_books m env file) as [-> | (books' & -> & Hcase)]; [eauto|].
      rewrite list_lookup_fmap.
      destruct Hcase as [(data & _ & ->) | (bookId & i & found & _ & Hfind & ->)].
      - rewrite (lookup_app_l_Some _ _ _ _ Hk). cbn. eauto.
      - apply findById_Some in Hfind as (Hi & _ & Hlt).
        destruct (decide (k = i)) as [->|Hne].
        + rewrite list_lookup_insert_eq by done. cbn.
          assert (found = book) as -> by congruence.
          eexists. split_and!; [done|..]; cbn.
          * now apply isActive_effect.
          * apply id_effect.
        + rewrite list_lookup_insert_ne, Hk by done. cbn. eauto. }
    destruct Hstep as (book1 & Hk1 & Hoff1 & Hid1).
    destruct (IH _ _ _ Hk1 Hoff1) as (book' & Hk' & Hoff' & Hid').
    exists book'. split_and!; congruence.
Qed.

(** [X6] In a collection grown from an empty store by calls of the
    actions, the book at position [k] (counted from 0) has the id [k+1],
    and [getBook] of the id of any of its books returns that very book. *)
Theorem getBook_finds_every_book file0 calls env k book :
  loadAll otherParse file0 = [] ->
  loadAll otherParse (performAll otherParse calls file0) !! k = Some book ->
  id book = pretty (k + 1)%nat
  /\ fst (getBook otherParse (id book) env (performAll otherParse calls file0))
     = Ok (Some book).
Proof.
  intros Hempty Hk.
  destruct (performAll_ids otherParse calls file0 0%nat) as [n Hids];
    [now rewrite Hempty|].
  set (books := loadAll otherParse (performAll otherParse calls file0)) in *.
  assert (Hat : forall j y, books !! j = Some y -> id y = pretty (j + 1)%nat).
  { intros j y Hj.
    assert (Hy : (id <$> books) !! j = Some (id y)) by now rewrite list_lookup_fmap, Hj.
    rewrite Hids, list_lookup_fmap in Hy.
    destruct (seq 1 n !! j) as [v|] eqn:Hv; [|done].
    apply lookup_seq in Hv as [-> _]. injection Hy as <-. f_equal. lia. }
  split; [now apply Hat|].
  rewrite getBook_findById. fold books.
  assert (Hfind : findById (id book) books = Some (k, book)).
  { apply list_find_Some. split_and!; [done..|].
    intros j y Hj Hlt Heq. rewrite (Hat _ _ Hj), (Hat _ _ Hk) in Heq.
    apply (inj pretty) in Heq. lia. }
  now rewrite Hfind.
Qed.

(** [X7] [addBook] takes the new id from the count alone. When a book
    of the store already has the id count + 1 (books were taken out of the
    file by hand), an [addBook] that can complete still puts its book
    behind the others under that id, and [getBook] of the id returns the
    old book, not the new one. *)
Theorem addBook_reuses_a_taken_id data env env' file i old :
  inStoreFormat file = true -> canComplete env ->
  findById (pretty (length (loadAll otherParse file) + 1)%nat) (loadAll otherParse file)
  = Some (i, old) ->
  exists file' added,
    addBook otherParse data env file = (Ok tt, file')
    /\ loadAll otherParse file' = loadAll otherParse file ++ [added]
    /\ id added = id old
    /\ title added = AddBookData.title data
    /\ fst (getBook otherParse (id added) env' file') = Ok (Some old).
Proof.
  intros Hf [Hw Hv] Hfind.
  destruct (addBook_succeeds otherParse data env file Hf Hw Hv) as (file' & Hr & _ & Hl).
  exists file', (newBook (length (loadAll otherParse file)) data
                   (startOfDay (TimeValue (now env)))).
  pose proof (findById_Some _ _ _ _ Hfind) as (_ & Hid & _).
  split_and!; [done..|].
  rewrite getBook_findById, Hl. cbn [id newBook fst].
  unfold findById in *. erewrite list_find_app_l; [done|exact Hfind].
Qed.

(** [X8] A book whose [addedDate] is an Invalid Date (a date string in
    the file that [new Date] cannot read) stops every write: [addBook]
    and every mutation that finds its book reject with the one error and
    leave the file as it is, for no action ever assigns [addedDate]. *)
Theorem invalid_addedDate_blocks_every_write file k bad :
  loadAll otherParse file !! k = Some bad -> addedDate bad = InvalidDate ->
  (forall data env,
     addBook otherParse data env file = (Err "Failed to save books", file))
  /\ (forall m bookId env i book,
        targetId m = Some bookId ->
        findById bookId (loadAll otherParse file) = Some (i, book) ->
        perform otherParse m env file = (Err "Failed to save books", file)).
Proof.
  intros Hk Hbad.
  assert (Hnone : forall books b, books !! k = Some b -> addedDate b = InvalidDate ->
            forall env, writeBooksToFile books env file
                        = (Err "Failed to save books", file)).
  { clear. intros books b Hk Hb env. unfold writeBooksToFile.
    destruct (booksToSave books) as [saved|] eqn:Hs; [|done]. exfalso.
    apply booksToSave_Forall2 in Hs.
    destruct (Forall2_lookup_l _ _ _ _ _ Hs Hk) as (s & _ & Hsave).
    unfold bookToSave in Hsave. now rewrite Hb in Hsave. }
  split.
  - intros data env. rewrite addBook_write.
    apply (Hnone _ bad); [now apply lookup_app_l_Some|done].
  - intros m bookId env i book Ht Hfind.
    rewrite (perform_replaceFirst otherParse _ _ _ _ Ht). unfold replaceFirst.
    rewrite Hfind. apply findById_Some in Hfind as (Hi & _ & Hlt).
    destruct (decide (k = i)) as [->|Hne].
    + apply (Hnone _ (effect m env book)); [now apply list_lookup_insert_eq|].
      rewrite addedDate_effect. congruence.
    + apply (Hnone _ bad); [now rewrite list_lookup_insert_ne|done].
Qed.

(** [X9] What [writeBooksToFile] has written, [readBooksFromFile] reads
    back as the same books with both dates at midnight (UTC) of their
    day, in the same order; and writing what was read leaves that file
    exactly as it is. *)
Theorem written_books_read_back books env file file' :
  writeBooksToFile books env file = (Ok tt, file') ->
  readBooksFromFile otherParse env file' = (Ok (asSaved <$> books), file')
  /\ forall env2, writeOk env2 = true ->
       writeBooksToFile (asSaved <$> books) env2 file' = (Ok tt, file').
Proof.
  intros Hr.
  destruct (writeBooksToFile_cases books env file)
    as [(saved & Hs & _ & Hr') | (_ & Hr')]; [|congruence].
  assert (file' = BooksJson saved) as -> by congruence.
  rewrite readBooksFromFile_loadAll, (loadAll_saved otherParse _ _ Hs).
  split; [done|]. intros env2 Hw.
  rewrite <- (loadAll_saved otherParse _ _ Hs). unfold writeBooksToFile.
  rewrite (booksToSave_loadAll otherParse (BooksJson saved)), Hw; [done|].
  eapply inStoreFormat_saved; eauto.
Qed.

(** *** How the mutations compose *)

Lemma found_again bookId f file i book s' :
  inStoreFormat file = true ->
  findById bookId (loadAll otherParse file) = Some (i, book) ->
  id (f book) = id book -> bookToSave (f book) = Some s' ->
  inStoreFormat (BooksJson (<[i := s']> (storedBooks file))) = true
  /\ findById bookId (loadAll otherParse (BooksJson (<[i := s']> (storedBooks file))))
     = Some (i, asSaved (f book)).
Proof.
  intros Hf Hfind Hid Hs. split.
  - eapply inStoreFormat_replaced; eauto.
  - rewrite (loadAll_replaced otherParse _ _ _ _ Hs).
    now apply findById_insert with (book := book).
Qed.

(** A second mutation of the same book that does not depend on what the
    first one assigned makes the first one void. *)
Lemma replaceFirst_overwrites bookId f1 f2 env1 env2 file :
  inStoreFormat file = true -> writeOk env2 = true ->
  (forall b, id (f1 b) = id b) ->
  (forall b, asSaved b = b -> f2 (asSaved (f1 b)) = f2 b) ->
  (forall b, is_Some (bookToSave b) -> is_Some (bookToSave (f2 b))) ->
  replaceFirst otherParse bookId f2 env2
    (snd (replaceFirst otherParse bookId f1 env1 file))
  = replaceFirst otherParse bookId f2 env2 file.
Proof.
  intros Hf Hw Hid Hcomp Hsav.
  destruct (findById bookId (loadAll otherParse file)) as [[i book]|] eqn:Hfind.
  - destruct (found_in_format otherParse _ _ _ _ Hf Hfind) as [Hsaved Hsome].
    rewrite (replaceFirst_result bookId f1 env1 file i book Hf Hfind).
    destruct (bookToSave (f1 book)) as [s1|] eqn:Hs1; [|done].
    destruct (writeOk env1); [|done]. cbn [snd].
    destruct (found_again bookId f1 file i book s1 Hf Hfind (Hid _) Hs1)
      as [Hf1 Hfind1].
    rewrite (replaceFirst_result bookId f2 env2 _ i _ Hf1 Hfind1).
    rewrite (replaceFirst_result bookId f2 env2 file i book Hf Hfind).
    rewrite (Hcomp _ Hsaved), Hw.
    destruct (Hsav _ Hsome) as [s2 ->]. cbn [storedBooks].
    now rewrite list_insert_insert_eq.
  - now rewrite (replaceFirst_absent otherParse bookId f1 env1 file Hfind).
Qed.

(** [X10] Of two successive calls of [updateBook] on one id the later
    one wins: the outcome and the file are those of the later call alone
    (its write succeeding, on a store in the format). The same holds for
    two calls of [updateBookCondition], and a second [markBookInactive]
    changes nothing that the first one has not changed. *)
Theorem later_write_wins bookId env1 env2 file :
  inStoreFormat file = true -> writeOk env2 = true ->
  (forall data1 data2,
     updateBook otherParse bookId data2 env2
       (snd (updateBook otherParse bookId data1 env1 file))
     = updateBook otherParse bookId data2 env2 file)
  /\ (forall c1 c2,
        updateBookCondition otherParse bookId c2 env2
          (snd (updateBookCondition otherParse bookId c1 env1 file))
        = updateBookCondition otherParse bookId c2 env2 file)
  /\ markBookInactive otherParse bookId env2
       (snd (markBookInactive otherParse bookId env1 file))
     = markBookInactive otherParse bookId env2 file.
Proof.
  intros Hf Hw. split_and!; intros.
  - rewrite !updateBook_replaceFirst.
    apply replaceFirst_overwrites; try done.
    + intros b Hb. change (asSaved (withData b data1)) with (withData (asSaved b) data1).
      now rewrite Hb.
    + intros b. now apply bookToSave_same_dates.
  - rewrite !updateBookCondition_replaceFirst.
    apply replaceFirst_overwrites; try done.
    + intros b Hb.
      change (asSaved (withCondition b c1)) with (withCondition (asSaved b) c1).
      now rewrite Hb.
    + intros b. now apply bookToSave_same_dates.
  - rewrite !markBookInactive_replaceFirst.
    apply replaceFirst_overwrites; try done.
    + intros b Hb. change (asSaved (inactive b)) with (inactive (asSaved b)).
      now rewrite Hb.
    + intros b. now apply bookToSave_same_dates.
Qed.

Lemma findById_insert_other bookId (books : list Book) j (old new : Book) :
  books !! j = Some old -> id old <> bookId -> id new <> bookId ->
  findById bookId (<[j := new]> books) = findById bookId books.
Proof.
  intros Hj Hold Hnew.
  destruct (findById bookId books) as [[i b]|] eqn:Hfind.
  - unfold findById in *. apply list_find_Some in Hfind as (Hi & Hid & Hfirst).
    assert (i <> j) by (intros ->; congruence).
    apply list_find_Some. split_and!; [now rewrite list_lookup_insert_ne|done|].
    intros k y Hk Hlt. destruct (decide (k = j)) as [->|Hne].
    + rewrite list_lookup_insert_eq in Hk by now apply lookup_lt_Some in Hj.
      congruence.
    + rewrite list_lookup_insert_ne in Hk by done. eauto.
  - apply findById_None in Hfind. apply findById_None.
    now apply Forall_insert.
Qed.

(** A mutation of one book leaves the first book with another id where
    and what it was. *)
Lemma replaceFirst_other bookId f env file other :
  inStoreFormat file = true -> (forall b, id (f b) = id b) -> other <> bookId ->
  inStoreFormat (snd (replaceFirst otherParse bookId f env file)) = true
  /\ findById other (loadAll otherParse (snd (replaceFirst otherParse bookId f env file)))
     = findById other (loadAll otherParse file).
Proof.
  intros Hf Hid Hne.
  destruct (findById bookId (loadAll otherParse file)) as [[i book]|] eqn:Hfind.
  - rewrite (replaceFirst_result bookId f env file i book Hf Hfind).
    destruct (bookToSave (f book)) as [s'|] eqn:Hs; [|done].
    destruct (writeOk env); [|done]. cbn [snd].
    split; [eapply inStoreFormat_replaced; eauto|].
    rewrite (loadAll_replaced otherParse _ _ _ _ Hs).
    apply findById_Some in Hfind as (Hi & Hbook & _).
    apply findById_insert_other with (old := book); [done|congruence|].
    cbn. rewrite Hid. congruence.
  - now rewrite (replaceFirst_absent otherParse bookId f env file Hfind).
Qed.

Lemma replaceFirst_commute id1 id2 f1 f2 env1 env2 file :
  inStoreFormat file = true -> id1 <> id2 ->
  (forall b, id (f1 b) = id b) -> (forall b, id (f2 b) = id b) ->
  snd (replaceFirst otherParse id2 f2 env2 (snd (replaceFirst otherParse id1 f1 env1 file)))
  = snd (replaceFirst otherParse id1 f1 env1 (snd (replaceFirst otherParse id2 f2 env2 file))).
Proof.
  intros Hf Hne Hid1 Hid2.
  destruct (replaceFirst_other id1 f1 env1 file id2 Hf Hid1 (not_eq_sym Hne))
    as [Hf1 Hfind21].
  destruct (replaceFirst_other id2 f2 env2 file id1 Hf Hid2 Hne) as [Hf2 Hfind12].
  destruct (findById id1 (loadAll otherParse file)) as [[i1 b1]|] eqn:Hfind1.
  - destruct (findById id2 (loadAll otherParse file)) as [[i2 b2]|] eqn:Hfind2.
    + rewrite (replaceFirst_result id2 f2 env2 _ i2 b2 Hf1 Hfind21).
      rewrite (replaceFirst_result id1 f1 env1 _ i1 b1 Hf2 Hfind12).
      rewrite (replaceFirst_result id1 f1 env1 file i1 b1 Hf Hfind1).
      rewrite (replaceFirst_result id2 f2 env2 file i2 b2 Hf Hfind2).
      assert (i1 <> i2).
      { apply findById_Some in Hfind1 as (? & ? & _).
        apply findById_Some in Hfind2 as (? & ? & _). intros ->. congruence. }
      destruct (bookToSave (f1 b1)) as [s1|], (bookToSave (f2 b2)) as [s2|],
        (writeOk env1), (writeOk env2); cbn [snd storedBooks]; try done.
      f_equal. now apply list_insert_insert_ne.
    + rewrite (replaceFirst_absent otherParse id2 f2 env2 file Hfind2) in *. cbn [snd] in *.
      now rewrite (replaceFirst_absent otherParse id2 f2 env2 _ Hfind21).
  - rewrite (replaceFirst_absent otherParse id1 f1 env1 file Hfind1) in *. cbn [snd] in *.
    now rewrite (replaceFirst_absent otherParse id1 f1 env1 _ Hfind12).
Qed.

(** [X11] Two mutations keyed by different ids can be made in either
    order: on a store in the format both orders leave the same file,
    whatever the outcome of each call. *)
Theorem mutations_of_different_ids_commute m1 m2 id1 id2 env1 env2 file :
  targetId m1 = Some id1 -> targetId m2 = Some id2 -> id1 <> id2 ->
  inStoreFormat file = true ->
  performAll otherParse [(env1, m1); (env2, m2)] file
  = performAll otherParse [(env2, m2); (env1, m1)] file.
Proof.
  intros Ht1 Ht2 Hne Hf. cbn [performAll].
  rewrite !(perform_replaceFirst otherParse m1 id1) by done.
  rewrite !(perform_replaceFirst otherParse m2 id2) by done.
  apply replaceFirst_commute; try done; intros b; apply id_effect.
Qed.

End MoreOnActions.

(* ===================================================================== *)
(** ** The pages and components                                           *)
(* ===================================================================== *)

Section Pages.
Variable otherParse : string -> option Z.

(** A mutation that found its book in a store in the format and could
    not change it leaves the very file. *)
Lemma replaceFirst_same bookId f env file i book :
  inStoreFormat file = true -> writeOk env = true ->
  findById bookId (loadAll otherParse file) = Some (i, book) ->
  f book = book ->
  replaceFirst otherParse bookId f env file = (Ok tt, file).
Proof.
  intros Hf Hw Hfind Hsame.
  rewrite (replaceFirst_result otherParse bookId f env file i book Hf Hfind), Hsame, Hw.
  pose proof (booksToSave_loadAll otherParse _ Hf) as Hs.
  apply booksToSave_Forall2 in Hs.
  apply findById_Some in Hfind as (Hi & _ & _).
  destruct (Forall2_lookup_l _ _ _ _ _ Hs Hi) as (s & Hsi & ->).
  rewrite list_insert_id by done.
  destruct file; [discriminate|done].
Qed.


Lemma BookPage_loadBook_state bookId st env file :
  runHandler (BookPage.loadBook otherParse bookId) st env file
  = (BookPage.mk (snd <$> findById bookId (loadAll otherParse file)) false
       (BookPage.showConfirm st), file).
Proof.
  unfold runHandler, BookPage.loadBook, bind. now rewrite getBook_findById.
Qed.

(** [X13] The page of a book. Once its effect has run it says that the
    book is not found exactly when no book of the collection has the id,
    and it shows the first book with the id otherwise, active or not:
    after [handleRemove] has removed the book on this page (store in the
    format, write succeeding) and sent the user to the list, the page of
    the same id still shows the book, now not active. *)
Theorem BookPage_shows_removed_books bookId env env' file :
  (BookPage.render
     (fst (runHandler (BookPage.loadBook otherParse bookId) BookPage.initial env file))
   = BookPage.BookNotFound
   <-> Forall (fun b => id b <> bookId) (loadAll otherParse file))
  /\ (forall i book,
        inStoreFormat file = true -> writeOk env = true ->
        findById bookId (loadAll otherParse file) = Some (i, book) ->
        BookPage.render
          (fst (runHandler (BookPage.loadBook otherParse bookId) BookPage.initial env file))
        = BookPage.Details book false
        /\ exists file' shown,
             BookPage.handleRemove otherParse bookId env file = (Ok "/books", file')
             /\ BookPage.render
                  (fst (runHandler (BookPage.loadBook otherParse bookId)
                          BookPage.initial env' file'))
                = BookPage.Details shown false
             /\ isActive shown = false
             /\ id shown = id book
             /\ title shown = title book).
Proof.
  split.
  - rewrite BookPage_loadBook_state, <- findById_None. cbn.
    destruct (findById bookId (loadAll otherParse file)) as [[i b]|]; cbn;
      split; intros; done.
  - intros i book Hf Hw Hfind. rewrite BookPage_loadBook_state, Hfind. split; [done|].
    destruct (found_in_format otherParse _ _ _ _ Hf Hfind) as [Hsaved Hsome].
    destruct (replaceFirst_succeeds otherParse bookId inactive env file i book)
      as (file' & Hr & _ & Hl); [done..| |].
    { revert Hsome. now apply bookToSave_same_dates. }
    change (asSaved (inactive book)) with (inactive (asSaved book)) in Hl.
    rewrite Hsaved in Hl.
    exists file', (inactive book).
    unfold BookPage.handleRemove, bind.
    rewrite markBookInactive_replaceFirst, Hr, BookPage_loadBook_state, Hl.
    rewrite (findById_insert _ _ _ _ (inactive book) Hfind eq_refl).
    split_and!; done.
Qed.

(** [X14] [handleCheckout] of the page of a book keeps the page in step
    with the file: when the call can complete (store in the format), the
    book that the page holds afterwards is the one that [getBook] returns
    from the new file, with [isCheckedOut] flipped; when the write fails,
    the page holds what it held and the file is as before. *)
Theorem BookPage_checkout_in_step bookId env env' file i book st :
  inStoreFormat file = true ->
  findById bookId (loadAll otherParse file) = Some (i, book) ->
  (canComplete env ->
   exists file' book',
     runHandler (BookPage.handleCheckout otherParse bookId) st env file
     = (BookPage.mk (Some book') (BookPage.loading st) (BookPage.showConfirm st), file')
     /\ fst (getBook otherParse bookId env' file') = Ok (Some book')
     /\ isCheckedOut book' = negb (isCheckedOut book))
  /\ (writeOk env = false ->
      runHandler (BookPage.handleCheckout otherParse bookId) st env file = (st, file)).
Proof.
  intros Hf Hfind. split.
  - intros Hc.
    destruct (toggleCheckoutStatus_step otherParse bookId env file i book Hf Hc Hfind)
      as (file' & Hr & _ & Hfind').
    exists file', (toggled book (startOfDay (TimeValue (now env)))).
    unfold runHandler, BookPage.handleCheckout, bind.
    rewrite Hr, !getBook_findById, Hfind'. done.
  - intros Hw. unfold runHandler, BookPage.handleCheckout, bind.
    rewrite toggleCheckoutStatus_replaceFirst.
    rewrite (replaceFirst_result otherParse _ _ _ _ _ _ Hf Hfind), Hw.
    now destruct (bookToSave _).
Qed.

Lemma withData_formOf (book : Book) : withData book (EditBookPage.formOf book) = book.
Proof. now destruct book. Qed.

(** [X15] The edit page. Its effect fills the form with the values of
    the first book with the id. Submitting the form as it was filled
    leaves the file exactly as it is; submitting it with another title
    gives that book the title and leaves all its other fields as they
    were (store in the format, write succeeding). Either way the user is
    sent to the page of the book. *)
Theorem EditBookPage_submit bookId year env env' file i book :
  inStoreFormat file = true -> writeOk env' = true ->
  findById bookId (loadAll otherParse file) = Some (i, book) ->
  let st := fst (runHandler (EditBookPage.loadBook otherParse bookId)
                   (EditBookPage.initial year) env file) in
  EditBookPage.book st = Some book
  /\ EditBookPage.formData st = EditBookPage.formOf book
  /\ EditBookPage.handleSubmit otherParse bookId st env' file
     = (Ok ("/books/" ++ bookId)%string, file)
  /\ forall value,
       exists file' book',
         EditBookPage.handleSubmit otherParse bookId
           (EditBookPage.changeTitle value st) env' file
         = (Ok ("/books/" ++ bookId)%string, file')
         /\ loadAll otherParse file' = <[i := book']> (loadAll otherParse file)
         /\ title book' = value
         /\ id book' = id book
         /\ author book' = author book
         /\ isbn book' = isbn book
         /\ publishedYear book' = publishedYear book
         /\ genre book' = genre book
         /\ description book' = description book
         /\ condition book' = condition book
         /\ isCheckedOut book' = isCheckedOut book
         /\ isActive book' = isActive book
         /\ addedDate book' = addedDate book
         /\ lastCheckedOutDate book' = lastCheckedOutDate book.
Proof.
  intros Hf Hw Hfind st.
  assert (Hst : st = EditBookPage.mk (Some book) false (EditBookPage.formOf book)).
  { unfold st, runHandler, EditBookPage.loadBook, bind.
    now rewrite getBook_findById, Hfind. }
  rewrite Hst. cbn [EditBookPage.book EditBookPage.formData].
  split_and!; [done..| |].
  - unfold EditBookPage.handleSubmit, bind. cbn [EditBookPage.formData].
    rewrite updateBook_replaceFirst.
    rewrite (replaceFirst_same bookId _ env' file i book Hf Hw Hfind); [done|].
    apply withData_formOf.
  - intros value.
    destruct (found_in_format otherParse _ _ _ _ Hf Hfind) as [Hsaved Hsome].
    set (form := EditBookPage.formData
                   (EditBookPage.changeTitle value
                      (EditBookPage.mk (Some book) false (EditBookPage.formOf book)))).
    destruct (replaceFirst_succeeds otherParse bookId (fun b => withData b form)
                env' file i book) as (file' & Hr & _ & Hl); [done..| |].
    { revert Hsome. now apply bookToSave_same_dates. }
    change (asSaved (withData book form)) with (withData (asSaved book) form) in Hl.
    rewrite Hsaved in Hl.
    exists file', (withData book form).
    unfold EditBookPage.handleSubmit, bind. fold form.
    rewrite updateBook_replaceFirst, Hr. split_and!; done.
Qed.

End Pages.

(* ===================================================================== *)
(** ** These theorems at work on sample data                              *)
(* ===================================================================== *)

Lemma twoBooksFile_found :
  findById "2" (loadAll noOtherParse twoBooksFile) = Some (1%nat, emmaOutBook).
Proof. vm_compute. reflexivity. Defined.

Lemma duneFile_none_7 : Forall (fun b => id b <> "7") (loadAll noOtherParse duneFile).
Proof. repeat constructor. discriminate. Defined.

Lemma updateBookCondition_sets_condition_witness :
  Forall (fun b => id b <> "7") (loadAll noOtherParse duneFile)
  /\ updateBookCondition noOtherParse "7" POOR someEnv duneFile = (Ok tt, duneFile)
  /\ inStoreFormat duneFile = true
  /\ writeOk someEnv = true
  /\ exists file' book',
       updateBookCondition noOtherParse "1" POOR someEnv duneFile = (Ok tt, file')
       /\ fst (getBook noOtherParse "1" someEnv file') = Ok (Some book')
       /\ condition book' = POOR
       /\ title book' = title duneBook.
Proof.
  split; [exact duneFile_none_7|].
  split; [exact (proj1 (updateBookCondition_sets_condition noOtherParse "7" POOR someEnv
                          duneFile) duneFile_none_7)|].
  split; [reflexivity|]. split; [reflexivity|].
  destruct (proj2 (updateBookCondition_sets_condition noOtherParse "1" POOR someEnv
                     duneFile) 0%nat duneBook eq_refl eq_refl duneFile_found)
    as (file' & book' & Hr & _ & Hget & Hc & _ & Ht & _).
  exists file', book'. repeat split; assumption.
Defined.

Lemma keyed_mutation_changes_first_match_only_witness :
  inStoreFormat twoBooksFile = true
  /\ loadAll noOtherParse
       (snd (perform noOtherParse (ToggleCheckout "2") someEnv twoBooksFile)) !! 0%nat
     = Some duneBook
  /\ (loadAll parseUtcDateTime
        (snd (perform parseUtcDateTime (ToggleCheckout "1") someEnv mixedFile)) !! 1%nat
      = Some stampedEmma
      \/ loadAll parseUtcDateTime
           (snd (perform parseUtcDateTime (ToggleCheckout "1") someEnv mixedFile)) !! 1%nat
         = Some (asSaved stampedEmma)).
Proof.
  split; [reflexivity|].
  split.
  - refine (proj2 (proj2 (proj2 (keyed_mutation_changes_first_match_only noOtherParse
                                   (ToggleCheckout "2") "2" someEnv twoBooksFile 1%nat
                                   emmaOutBook eq_refl twoBooksFile_found))
                     0%nat duneBook _ eq_refl) eq_refl).
    discriminate.
  - refine (proj1 (proj2 (proj2 (keyed_mutation_changes_first_match_only parseUtcDateTime
                                   (ToggleCheckout "1") "1" someEnv mixedFile 0%nat
                                   duneBook eq_refl _))
                     1%nat stampedEmma _ _)).
    + vm_compute. reflexivity.
    + discriminate.
    + vm_compute. reflexivity.
Defined.

Lemma calls_that_can_complete_fulfil_witness :
  inStoreFormat duneFile = true
  /\ canComplete someEnv
  /\ fst (perform noOtherParse (ToggleCheckout "1") someEnv duneFile) = Ok tt
  /\ fst (perform noOtherParse (Update "1" emma) someEnv
            (performAll noOtherParse [(someEnv, Add emma)] duneFile)) = Ok tt.
Proof.
  destruct (calls_that_can_complete_fulfil noOtherParse duneFile eq_refl) as [Hone Hall].
  split; [reflexivity|]. split; [exact someEnv_canComplete|].
  split; [exact (proj1 (Hone (ToggleCheckout "1") someEnv someEnv_canComplete))|].
  apply (Hall [(someEnv, Add emma)] someEnv (Update "1" emma) []).
  repeat (constructor; [exact someEnv_canComplete|]). constructor.
Defined.

Lemma toggleCheckoutStatus_dates_the_checkout_witness :
  inStoreFormat duneFile = true
  /\ canComplete someEnv
  /\ exists file' book',
       toggleCheckoutStatus noOtherParse "1" someEnv duneFile = (Ok tt, file')
       /\ fst (getBook noOtherParse "1" someEnv file') = Ok (Some book')
       /\ isCheckedOut book' = true
       /\ lastCheckedOutDate book' = Some (TimeValue 1699920000000).
Proof.
  split; [reflexivity|]. split; [exact someEnv_canComplete|].
  destruct (toggleCheckoutStatus_dates_the_checkout noOtherParse "1" someEnv someEnv
              duneFile 0%nat duneBook eq_refl someEnv_canComplete duneFile_found)
    as (file' & book' & Hr & Hget & Hout & Hdate & _).
  exists file', book'. split; [exact Hr|]. split; [exact Hget|].
  split; [exact Hout|]. exact (Hdate eq_refl).
Defined.

Lemma inactive_books_stay_inactive_witness :
  loadAll noOtherParse removedFile !! 0%nat = Some removedBook
  /\ isActive removedBook = false
  /\ exists book',
       loadAll noOtherParse
         (performAll noOtherParse
            [(someEnv, ToggleCheckout "1"); (someEnv, Update "1" emma); (someEnv, Add dune)]
            removedFile) !! 0%nat = Some book'
       /\ isActive book' = false /\ id book' = id removedBook.
Proof.
  split; [reflexivity|]. split; [reflexivity|].
  exact (inactive_books_stay_inactive noOtherParse _ removedFile 0%nat removedBook
           eq_refl eq_refl).
Defined.

Lemma getBook_finds_every_book_witness :
  loadAll noOtherParse emptyFile = []
  /\ loadAll noOtherParse
       (performAll noOtherParse [(someEnv, Add dune); (someEnv, Add emma)] emptyFile)
       !! 1%nat = Some emmaBook
  /\ id emmaBook = pretty (1 + 1)%nat
  /\ fst (getBook noOtherParse (id emmaBook) someEnv
            (performAll noOtherParse [(someEnv, Add dune); (someEnv, Add emma)] emptyFile))
     = Ok (Some emmaBook).
Proof.
  assert (Hk : loadAll noOtherParse
                 (performAll noOtherParse [(someEnv, Add dune); (someEnv, Add emma)]
                    emptyFile) !! 1%nat = Some emmaBook)
    by (vm_compute; reflexivity).
  split; [reflexivity|]. split; [exact Hk|].
  exact (getBook_finds_every_book noOtherParse emptyFile _ someEnv 1%nat emmaBook
           eq_refl Hk).
Defined.

Lemma addBook_reuses_a_taken_id_witness :
  inStoreFormat gapFile = true
  /\ canComplete someEnv
  /\ findById (pretty (length (loadAll noOtherParse gapFile) + 1)%nat)
       (loadAll noOtherParse gapFile) = Some (0%nat, emmaBook)
  /\ exists file' added,
       addBook noOtherParse dune someEnv gapFile = (Ok tt, file')
       /\ loadAll noOtherParse file' = loadAll noOtherParse gapFile ++ [added]
       /\ id added = id emmaBook
       /\ title added = AddBookData.title dune
       /\ fst (getBook noOtherParse (id added) someEnv file') = Ok (Some emmaBook).
Proof.
  assert (Hfind : findById (pretty (length (loadAll noOtherParse gapFile) + 1)%nat)
                    (loadAll noOtherParse gapFile) = Some (0%nat, emmaBook))
    by (vm_compute; reflexivity).
  split; [reflexivity|]. split; [exact someEnv_canComplete|]. split; [exact Hfind|].
  exact (addBook_reuses_a_taken_id noOtherParse dune someEnv someEnv gapFile 0%nat
           emmaBook eq_refl someEnv_canComplete Hfind).
Defined.

Lemma invalid_addedDate_blocks_every_write_witness :
  loadAll noOtherParse brokenFile !! 0%nat = Some brokenBook
  /\ addedDate brokenBook = InvalidDate
  /\ addBook noOtherParse emma someEnv brokenFile = (Err "Failed to save books", brokenFile)
  /\ perform noOtherParse (Update "1" emma) someEnv brokenFile
     = (Err "Failed to save books", brokenFile).
Proof.
  destruct (invalid_addedDate_blocks_every_write noOtherParse brokenFile 0%nat brokenBook
              eq_refl eq_refl) as [Hadd Hkeyed].
  split; [reflexivity|]. split; [reflexivity|].
  split; [exact (Hadd emma someEnv)|].
  apply (Hkeyed (Update "1" emma) "1" someEnv 0%nat brokenBook eq_refl).
  vm_compute. reflexivity.
Defined.

Lemma written_books_read_back_witness :
  writeBooksToFile [duneBook] someEnv emptyFile = (Ok tt, duneFile)
  /\ readBooksFromFile noOtherParse someEnv duneFile = (Ok (asSaved <$> [duneBook]), duneFile)
  /\ writeBooksToFile (asSaved <$> [duneBook]) someEnv duneFile = (Ok tt, duneFile).
Proof.
  assert (Hw : writeBooksToFile [duneBook] someEnv emptyFile = (Ok tt, duneFile))
    by (vm_compute; reflexivity).
  destruct (written_books_read_back noOtherParse [duneBook] someEnv emptyFile duneFile Hw)
    as [Hread Hagain].
  split; [exact Hw|]. split; [exact Hread|]. exact (Hagain someEnv eq_refl).
Defined.

Lemma later_write_wins_witness :
  inStoreFormat duneFile = true
  /\ writeOk someEnv = true
  /\ updateBook noOtherParse "1" emma someEnv
       (snd (updateBook noOtherParse "1" dune fullDisk duneFile))
     = updateBook noOtherParse "1" emma someEnv duneFile
  /\ markBookInactive noOtherParse "1" someEnv
       (snd (markBookInactive noOtherParse "1" someEnv duneFile))
     = markBookInactive noOtherParse "1" someEnv duneFile.
Proof.
  split; [reflexivity|]. split; [reflexivity|].
  split.
  - exact (proj1 (later_write_wins noOtherParse "1" fullDisk someEnv duneFile
                    eq_refl eq_refl) dune emma).
  - exact (proj2 (proj2 (later_write_wins noOtherParse "1" someEnv someEnv duneFile
                           eq_refl eq_refl))).
Defined.

Lemma mutations_of_different_ids_commute_witness :
  inStoreFormat twoBooksFile = true
  /\ performAll noOtherParse
       [(someEnv, ToggleCheckout "1"); (fullDisk, SetInactive "2")] twoBooksFile
     = performAll noOtherParse
         [(fullDisk, SetInactive "2"); (someEnv, ToggleCheckout "1")] twoBooksFile.
Proof.
  split; [reflexivity|].
  apply (mutations_of_different_ids_commute noOtherParse (ToggleCheckout "1")
           (SetInactive "2") "1" "2"); [reflexivity|reflexivity|discriminate|reflexivity].
Defined.


Lemma BookPage_shows_removed_books_witness :
  inStoreFormat duneFile = true
  /\ writeOk someEnv = true
  /\ exists file' shown,
       BookPage.handleRemove noOtherParse "1" someEnv duneFile = (Ok "/books", file')
       /\ BookPage.render
            (fst (runHandler (BookPage.loadBook noOtherParse "1") BookPage.initial
                    someEnv file'))
          = BookPage.Details shown false
       /\ isActive shown = false.
Proof.
  split; [reflexivity|]. split; [reflexivity|].
  destruct (proj2 (BookPage_shows_removed_books noOtherParse "1" someEnv someEnv duneFile)
              0%nat duneBook eq_refl eq_refl duneFile_found)
    as (_ & file' & shown & Hr & Hview & Hoff & _).
  exists file', shown. repeat split; assumption.
Defined.

Lemma BookPage_checkout_in_step_witness :
  inStoreFormat duneFile = true
  /\ canComplete someEnv
  /\ writeOk fullDisk = false
  /\ (exists file' book',
        runHandler (BookPage.handleCheckout noOtherParse "1")
          (BookPage.mk (Some duneBook) false false) someEnv duneFile
        = (BookPage.mk (Some book') false false, file')
        /\ isCheckedOut book' = true)
  /\ runHandler (BookPage.handleCheckout noOtherParse "1")
       (BookPage.mk (Some duneBook) false false) fullDisk duneFile
     = (BookPage.mk (Some duneBook) false false, duneFile).
Proof.
  destruct (BookPage_checkout_in_step noOtherParse "1" someEnv someEnv duneFile 0%nat
              duneBook (BookPage.mk (Some duneBook) false false) eq_refl duneFile_found)
    as [Hok _].
  destruct (BookPage_checkout_in_step noOtherParse "1" fullDisk someEnv duneFile 0%nat
              duneBook (BookPage.mk (Some duneBook) false false) eq_refl duneFile_found)
    as [_ Hfail].
  split; [reflexivity|]. split; [exact someEnv_canComplete|]. split; [reflexivity|].
  split.
  - destruct (Hok someEnv_canComplete) as (file' & book' & Hr & _ & Hout).
    exists file', book'. split; [exact Hr|exact Hout].
  - exact (Hfail eq_refl).
Defined.

Lemma EditBookPage_submit_witness :
  inStoreFormat duneFile = true
  /\ writeOk someEnv = true
  /\ EditBookPage.handleSubmit noOtherParse "1"
       (fst (runHandler (EditBookPage.loadBook noOtherParse "1")
               (EditBookPage.initial 2023) someEnv duneFile)) someEnv duneFile
     = (Ok "/books/1", duneFile).
Proof.
  split; [reflexivity|]. split; [reflexivity|].
  exact (proj1 (proj2 (proj2 (EditBookPage_submit noOtherParse "1" 2023 someEnv someEnv
                                duneFile 0%nat duneBook eq_refl eq_refl duneFile_found)))).
Defined.
